(** * Java chunker (core/indexing/chunk/java/code.ts) and
      package lookup (core/util/javaCodeUtil.ts): a shallow embedding.

    The syntax tree of web-tree-sitter is an inductive rose tree; a node
    handle that the code follows upward through [parent] is a cursor (the
    node together with the chain of its ancestors).  JavaScript strings are
    sequences of code units; the embedding uses [string], one [ascii] per
    code unit, which covers the code units below 256.  Byte offsets are [Z]
    because the code subtracts them and hands the difference to [slice],
    which gives negative indices a meaning of their own. *)

From Stdlib Require Import ZArith List Bool Lia Ascii String.
From Stdlib Require Import Numbers.DecimalString.
From Stdlib Require DecimalNat DecimalFacts.
Import ListNotations.

Open Scope list_scope.
Open Scope string_scope.

(* ------------------------------------------------------------------ *)
(** ** The JavaScript string and array primitives the code calls *)

Module JS.

Fixpoint take (n : nat) (s : string) : string :=
  match n, s with
  | S n', String c s' => String c (take n' s')
  | _, _ => EmptyString
  end.

Fixpoint drop (n : nat) (s : string) : string :=
  match n, s with
  | S n', String _ s' => drop n' s'
  | _, _ => s
  end.

(** Relative index resolution of [String.prototype.slice]: a negative
    index counts from the end, and everything is clamped to [0, len]. *)
Definition clampIndex (len i : Z) : Z :=
  if (i <? 0)%Z then Z.max (len + i) 0 else Z.min i len.

(** [s.slice(from, to)] *)
Definition slice (s : string) (from to : Z) : string :=
  let len := Z.of_nat (String.length s) in
  let a := clampIndex len from in
  let b := clampIndex len to in
  take (Z.to_nat (b - a)) (drop (Z.to_nat a) s).

(** [s.slice(from)] *)
Definition sliceFrom (s : string) (from : Z) : string :=
  slice s from (Z.of_nat (String.length s)).

(** [s.replace(pat, rep)] with a string pattern: only the first
    occurrence is replaced.  (The replacement strings of the code contain
    no [$], so no replacement pattern is involved.) *)
Fixpoint replace (pat rep s : string) : string :=
  if String.prefix pat s then rep ++ drop (String.length pat) s
  else match s with
       | EmptyString => EmptyString
       | String c s' => String c (replace pat rep s')
       end.

(** WhiteSpace and LineTerminator code units below 256:
    TAB, LF, VT, FF, CR, SP and NBSP. *)
Definition isWhiteSpace (c : ascii) : bool :=
  let n := nat_of_ascii c in
  (((9 <=? n) && (n <=? 13)) || (n =? 32) || (n =? 160))%nat.

Fixpoint trimStart (s : string) : string :=
  match s with
  | EmptyString => EmptyString
  | String c s' => if isWhiteSpace c then trimStart s' else s
  end.

(** Trailing white space: a character is kept when it is not white
    space or when something is kept after it. *)
Fixpoint trimEnd (s : string) : string :=
  match s with
  | EmptyString => EmptyString
  | String c s' =>
      match trimEnd s' with
      | EmptyString => if isWhiteSpace c then EmptyString
                       else String c EmptyString
      | r => String c r
      end
  end.

(** [s.trim()] *)
Definition trim (s : string) : string := trimEnd (trimStart s).

(** Truthiness of a string: the empty string is falsy. *)
Definition truthy (s : string) : bool :=
  match s with EmptyString => false | _ => true end.

(** Template-literal rendering of a non-negative integer. *)
Definition numberToString (n : nat) : string :=
  NilZero.string_of_uint (Nat.to_uint n).

(** [Array.prototype.sort(cmp)] is stable; the element [x] is placed
    after every element that [cmp] orders strictly before it and before
    the first element that does not precede it.  [cmp a b > 0] means
    that [a] comes after [b]. *)
Section Sort.
Variable A : Type.
Variable cmp : A -> A -> Z.

Fixpoint insert (x : A) (l : list A) : list A :=
  match l with
  | [] => [x]
  | y :: l' => if (0 <? cmp x y)%Z then y :: insert x l'
               else x :: l
  end.

Fixpoint sort (l : list A) : list A :=
  match l with
  | [] => []
  | x :: l' => insert x (sort l')
  end.
End Sort.
Arguments insert {A} cmp x l.
Arguments sort {A} cmp l.

End JS.

(* ------------------------------------------------------------------ *)
(** ** Syntax trees *)

Unset Elimination Schemes.
Inductive SyntaxNode : Type :=
  mkNode (type : string) (text : string)
         (startIndex endIndex : Z)
         (startRow endRow : nat)
         (children : list SyntaxNode).
Set Elimination Schemes.

Definition type (n : SyntaxNode) : string :=
  match n with mkNode t _ _ _ _ _ _ => t end.
Definition text (n : SyntaxNode) : string :=
  match n with mkNode _ t _ _ _ _ _ => t end.
Definition startIndex (n : SyntaxNode) : Z :=
  match n with mkNode _ _ s _ _ _ _ => s end.
Definition endIndex (n : SyntaxNode) : Z :=
  match n with mkNode _ _ _ e _ _ _ => e end.
(** [node.startPosition.row] and [node.endPosition.row] *)
Definition startRow (n : SyntaxNode) : nat :=
  match n with mkNode _ _ _ _ r _ _ => r end.
Definition endRow (n : SyntaxNode) : nat :=
  match n with mkNode _ _ _ _ _ r _ => r end.
Definition children (n : SyntaxNode) : list SyntaxNode :=
  match n with mkNode _ _ _ _ _ _ c => c end.

(** Induction on trees: the property holds of a node when it holds of
    all its children. *)
Section Induction.
Variable P : SyntaxNode -> Prop.
Hypothesis step :
  forall ty tx s e r1 r2 cs, Forall P cs -> P (mkNode ty tx s e r1 r2 cs).

Fixpoint SyntaxNode_ind (n : SyntaxNode) : P n :=
  match n with
  | mkNode ty tx s e r1 r2 cs =>
      step ty tx s e r1 r2 cs
        ((fix all (l : list SyntaxNode) : Forall P l :=
            match l with
            | [] => Forall_nil P
            | c :: rest => Forall_cons c (SyntaxNode_ind c) (all rest)
            end) cs)
  end.
End Induction.

(** A node handle with its [parent] chain, nearest ancestor first. *)
Record Cursor : Type := mkCursor {
  focus : SyntaxNode;
  ancestors : list SyntaxNode
}.

(** [node.parent] *)
Definition parent (c : Cursor) : option Cursor :=
  match ancestors c with
  | [] => None
  | p :: up => Some (mkCursor p up)
  end.

(** [while (current.parent) current = current.parent], the loop of
    both [getPackageName] functions. *)
Fixpoint walkToRoot (current : SyntaxNode) (up : list SyntaxNode) : SyntaxNode :=
  match up with
  | [] => current
  | p :: up' => walkToRoot p up'
  end.

Definition rootOf (c : Cursor) : SyntaxNode :=
  walkToRoot (focus c) (ancestors c).

(* ------------------------------------------------------------------ *)
(** ** core/indexing/chunk/java/code.ts *)

Module NODE_TYPES.
Definition PACKAGE := "package_declaration".
Definition CLASS := "class_declaration".
Definition INTERFACE := "interface_declaration".
Definition METHOD := "method_declaration".
Definition CONSTRUCTOR := "constructor_declaration".
Definition ENUM := "enum_declaration".
Definition ANNOTATION := "annotation_type_declaration".
Definition CLASS_BODY := "class_body".
Definition INTERFACE_BODY := "interface_body".
Definition IDENTIFIER := "identifier".
Definition PARAMETERS := "formal_parameters".
Definition BLOCK := "block".
End NODE_TYPES.

Inductive JavaChunkType : Type := class_definition | method_definition.

Record JavaChunkWithoutID : Type := mkChunk {
  content : string;
  startLine : nat;
  endLine : nat;
  methodIdentifier : option string;
  chunkType : JavaChunkType
}.

Record MethodCollapsed : Type := mkCollapsed {
  start : Z;
  end_ : Z;
  collapsedStr : string
}.

Module Code.

Fixpoint findNodeByType (node : SyntaxNode) (ty : string) : option SyntaxNode :=
  match node with
  | mkNode t _ _ _ _ _ cs =>
      if t =? ty then Some node
      else
        (fix loop (l : list SyntaxNode) : option SyntaxNode :=
           match l with
           | [] => None
           | child :: rest =>
               match findNodeByType child ty with
               | Some result => Some result
               | None => loop rest
               end
           end) cs
  end.

Definition isClassOrInterface (node : SyntaxNode) : bool :=
  (NODE_TYPES.CLASS =? type node) || (NODE_TYPES.INTERFACE =? type node).

Definition isClassOrInterfaceBody (node : SyntaxNode) : bool :=
  (NODE_TYPES.CLASS_BODY =? type node) || (NODE_TYPES.INTERFACE_BODY =? type node).

Definition isCollapsedNode (node : SyntaxNode) : bool :=
  type node =? NODE_TYPES.METHOD.

Definition getPackageName (node : Cursor) : string :=
  let current := rootOf node in
  match findNodeByType current NODE_TYPES.PACKAGE with
  | Some packageNode =>
      JS.trim (JS.replace ";" "" (JS.replace "package " "" (text packageNode)))
  | None => ""
  end.

Definition getSimpleClassName (node : SyntaxNode) : string :=
  match findNodeByType node NODE_TYPES.IDENTIFIER with
  | Some classNameNode => text classNameNode
  | None => ""
  end.

(** [parentClassName] is an optional parameter: [None] is [undefined]. *)
Definition getFullClassName (node : Cursor) (parentClassName : option string) : string :=
  let packageName := getPackageName node in
  let className := getSimpleClassName (focus node) in
  let fullClassName :=
    if JS.truthy packageName then packageName ++ "." ++ className
    else className in
  match parentClassName with
  | Some p => if JS.truthy p then p ++ "$" ++ fullClassName else fullClassName
  | None => fullClassName
  end.

Definition getMethodIdentifier (methodNode : SyntaxNode) : string :=
  match find (fun child => type child =? NODE_TYPES.IDENTIFIER) (children methodNode) with
  | None => ""
  | Some nameNode =>
      text nameNode ++ "[" ++ JS.numberToString (startRow methodNode)
        ++ "-" ++ JS.numberToString (endRow methodNode) ++ "]"
  end.

Definition collectMethodCollapseds (methodNode : SyntaxNode) (baseOffset : Z)
  : option MethodCollapsed :=
  match find (fun n => type n =? NODE_TYPES.BLOCK) (children methodNode) with
  | None => None
  | Some bodyNode =>
      let methodIdentifier := getMethodIdentifier methodNode in
      let start := (startIndex bodyNode - baseOffset)%Z in
      let end_ := (endIndex bodyNode - baseOffset)%Z in
      Some (mkCollapsed start end_ ("{ id:" ++ methodIdentifier ++ " }"))
  end.

(** The members of a class body that the two recursive walks visit. *)
Definition isVisitedChild (child : SyntaxNode) : bool :=
  (type child =? NODE_TYPES.METHOD) || isClassOrInterface child.

(** The array [collapseds] is threaded through: every call returns the
    array as it is after the call; [push] appends at the end.  The
    lookup [node.children.find(isClassOrInterfaceBody)] is the inner
    loop [firstBody], so that the recursion stays structural; the
    equation [WalkFacts.collectMethodCollapsedsRecursively_eq] restores
    the shape of the source. *)
Fixpoint collectMethodCollapsedsRecursively
    (node : SyntaxNode) (baseOffset : Z) (collapseds : list MethodCollapsed)
  : list MethodCollapsed :=
  let eachChild :=
    fix eachChild (l : list SyntaxNode) (acc : list MethodCollapsed) :=
      match l with
      | [] => acc
      | child :: rest =>
          eachChild rest
            (if isVisitedChild child
             then collectMethodCollapsedsRecursively child baseOffset acc
             else acc)
      end in
  if isCollapsedNode node then
    match collectMethodCollapseds node baseOffset with
    | Some collapsed => (collapseds ++ [collapsed])%list
    | None => collapseds
    end
  else
    match node with
    | mkNode _ _ _ _ _ _ cs =>
        if isClassOrInterfaceBody node then eachChild cs collapseds
        else
          (fix firstBody (l : list SyntaxNode) : list MethodCollapsed :=
             match l with
             | [] => collapseds
             | c :: rest =>
                 if isClassOrInterfaceBody c
                 then match c with
                      | mkNode _ _ _ _ _ _ bodyChildren =>
                          eachChild bodyChildren collapseds
                      end
                 else firstBody rest
             end) cs
    end.

Definition methodChunk (node : SyntaxNode) : JavaChunkWithoutID :=
  {| content := text node;
     startLine := startRow node;
     endLine := endRow node;
     methodIdentifier := Some (getMethodIdentifier node);
     chunkType := method_definition |}.

(** The generator, as the list of the chunks it yields, in order. *)
Fixpoint chunkMethodRecursively (node : SyntaxNode) : list JavaChunkWithoutID :=
  let eachChild :=
    fix eachChild (l : list SyntaxNode) : list JavaChunkWithoutID :=
      match l with
      | [] => []
      | child :: rest =>
          ((if isVisitedChild child then chunkMethodRecursively child else [])
             ++ eachChild rest)%list
      end in
  if isCollapsedNode node then
    if (startRow node =? endRow node)%nat then []
    else [methodChunk node]
  else
    match node with
    | mkNode _ _ _ _ _ _ cs =>
        if isClassOrInterfaceBody node then eachChild cs
        else
          (fix firstBody (l : list SyntaxNode) : list JavaChunkWithoutID :=
             match l with
             | [] => []
             | c :: rest =>
                 if isClassOrInterfaceBody c
                 then match c with
                      | mkNode _ _ _ _ _ _ bodyChildren => eachChild bodyChildren
                      end
                 else firstBody rest
             end) cs
    end.

Definition applyCollapsed (modifiedCode : string) (c : MethodCollapsed) : string :=
  JS.slice modifiedCode 0 (start c) ++ collapsedStr c
    ++ JS.sliceFrom modifiedCode (end_ c).

Definition collapseMethodBody (node : SyntaxNode) (code : string) : string :=
  let collapseds := collectMethodCollapsedsRecursively node (startIndex node) [] in
  let collapseds := JS.sort (fun a b => (start b - start a)%Z) collapseds in
  fold_left applyCollapsed collapseds code.

Definition getCollapsedClassDefinition (node : SyntaxNode) (code : string)
  : JavaChunkWithoutID :=
  let modifiedCode :=
    collapseMethodBody node (JS.slice code (startIndex node) (endIndex node)) in
  let importsAndPackage := JS.slice code 0 (startIndex node) in
  {| content := importsAndPackage ++ modifiedCode;
     startLine := 0;
     endLine := endRow node;
     methodIdentifier := None;
     chunkType := class_definition |}.

(** What one child of the root contributes to the output. *)
Definition chunkTopLevel (contents : string) (node : SyntaxNode)
  : list JavaChunkWithoutID :=
  if isClassOrInterface node then
    getCollapsedClassDefinition node contents :: chunkMethodRecursively node
  else if (NODE_TYPES.ENUM =? type node) || (NODE_TYPES.ANNOTATION =? type node) then
    [ {| content := contents;
         startLine := startRow node;
         endLine := endRow node;
         methodIdentifier := None;
         chunkType := class_definition |} ]
  else [].

(** The effects of [codeChunker] that a caller can observe, in the
    order in which they happen. *)
Inductive Event : Type :=
| GetParser (filepath : string)
| Parse (contents : string)
| Yield (chunk : JavaChunkWithoutID).

Inductive Outcome : Type :=
| Returned
| Thrown (message : string).

Record Run : Type := mkRun { trace : list Event; outcome : Outcome }.

Definition yielded (r : Run) : list JavaChunkWithoutID :=
  flat_map (fun e => match e with Yield c => [c] | _ => [] end) (trace r).

Section Chunker.
(** [getParserForFile] of core/util/treeSitter.ts lies outside the
    sources; a parser is what [parser.parse(contents).rootNode]
    returns. *)
Variable getParserForFile : string -> option (string -> SyntaxNode).

Definition codeChunker (filepath contents : string) : Run :=
  if (String.length (JS.trim contents) =? 0)%nat then mkRun [] Returned
  else
    match getParserForFile filepath with
    | None =>
        mkRun [GetParser filepath]
              (Thrown ("Failed to load parser for file " ++ filepath))
    | Some parser =>
        let root := parser contents in
        mkRun (GetParser filepath :: Parse contents
                 :: map Yield (flat_map (chunkTopLevel contents) (children root)))
              Returned
    end.
End Chunker.

End Code.

(* ------------------------------------------------------------------ *)
(** ** code.ts again, with its arrays in a store

    The only objects code.ts mutates are the arrays [collapseds]: one is
    created by every call of [collapseMethodBody], handed by reference to
    [collectMethodCollapsedsRecursively], which pushes onto it, and then
    sorted in place.  Here the arrays live in a store that outlasts the
    calls, so that what one run leaves behind is there when the next run
    starts. *)

Module Store.

Definition Ref : Type := nat.
Definition Heap : Type := list (list MethodCollapsed).

Fixpoint update (a : Ref) (f : list MethodCollapsed -> list MethodCollapsed)
    (h : Heap) : Heap :=
  match h, a with
  | [], _ => []
  | arr :: h', O => f arr :: h'
  | arr :: h', S a' => arr :: update a' f h'
  end.

(** [const collapseds = []]: a new array, at an address not in use. *)
Definition alloc (h : Heap) : Ref * Heap := (List.length h, (h ++ [[]])%list).

Definition read (a : Ref) (h : Heap) : list MethodCollapsed := nth a h [].

(** [collapseds.push(x)] *)
Definition push (a : Ref) (x : MethodCollapsed) (h : Heap) : Heap :=
  update a (fun arr => (arr ++ [x])%list) h.

(** [collapseds.sort(cmp)], in place *)
Definition sortInPlace (a : Ref) (cmp : MethodCollapsed -> MethodCollapsed -> Z)
    (h : Heap) : Heap :=
  update a (JS.sort cmp) h.

End Store.

Module Stateful.

Fixpoint collectMethodCollapsedsRecursively
    (node : SyntaxNode) (baseOffset : Z) (collapseds : Store.Ref)
    (h : Store.Heap) : Store.Heap :=
  let eachChild :=
    fix eachChild (l : list SyntaxNode) (h : Store.Heap) :=
      match l with
      | [] => h
      | child :: rest =>
          eachChild rest
            (if Code.isVisitedChild child
             then collectMethodCollapsedsRecursively child baseOffset collapseds h
             else h)
      end in
  if Code.isCollapsedNode node then
    match Code.collectMethodCollapseds node baseOffset with
    | Some collapsed => Store.push collapseds collapsed h
    | None => h
    end
  else
    match node with
    | mkNode _ _ _ _ _ _ cs =>
        if Code.isClassOrInterfaceBody node then eachChild cs h
        else
          (fix firstBody (l : list SyntaxNode) : Store.Heap :=
             match l with
             | [] => h
             | c :: rest =>
                 if Code.isClassOrInterfaceBody c
                 then match c with
                      | mkNode _ _ _ _ _ _ bodyChildren =>
                          eachChild bodyChildren h
                      end
                 else firstBody rest
             end) cs
    end.

Definition collapseMethodBody (node : SyntaxNode) (code : string)
    (h : Store.Heap) : string * Store.Heap :=
  let (collapseds, h) := Store.alloc h in
  let h := collectMethodCollapsedsRecursively node (startIndex node) collapseds h in
  let h := Store.sortInPlace collapseds (fun a b => (start b - start a)%Z) h in
  (fold_left Code.applyCollapsed (Store.read collapseds h) code, h).

Definition getCollapsedClassDefinition (node : SyntaxNode) (code : string)
    (h : Store.Heap) : JavaChunkWithoutID * Store.Heap :=
  let (modifiedCode, h) :=
    collapseMethodBody node (JS.slice code (startIndex node) (endIndex node)) h in
  let importsAndPackage := JS.slice code 0 (startIndex node) in
  ({| content := importsAndPackage ++ modifiedCode;
      startLine := 0;
      endLine := endRow node;
      methodIdentifier := None;
      chunkType := class_definition |}, h).

Definition chunkTopLevel (contents : string) (node : SyntaxNode)
    (h : Store.Heap) : list JavaChunkWithoutID * Store.Heap :=
  if Code.isClassOrInterface node then
    let (skeleton, h) := getCollapsedClassDefinition node contents h in
    (skeleton :: Code.chunkMethodRecursively node, h)
  else if (NODE_TYPES.ENUM =? type node) || (NODE_TYPES.ANNOTATION =? type node) then
    ([ {| content := contents;
          startLine := startRow node;
          endLine := endRow node;
          methodIdentifier := None;
          chunkType := class_definition |} ], h)
  else ([], h).

(** The loop over [root.children]. *)
Fixpoint eachTopLevel (contents : string) (l : list SyntaxNode)
    (h : Store.Heap) : list JavaChunkWithoutID * Store.Heap :=
  match l with
  | [] => ([], h)
  | node :: rest =>
      let (chunks, h) := chunkTopLevel contents node h in
      let (more, h) := eachTopLevel contents rest h in
      ((chunks ++ more)%list, h)
  end.

Section Chunker.
Variable getParserForFile : string -> option (string -> SyntaxNode).

Definition codeChunker (filepath contents : string) (h : Store.Heap)
  : Code.Run * Store.Heap :=
  if (String.length (JS.trim contents) =? 0)%nat then (Code.mkRun [] Code.Returned, h)
  else
    match getParserForFile filepath with
    | None =>
        (Code.mkRun [Code.GetParser filepath]
           (Code.Thrown ("Failed to load parser for file " ++ filepath)), h)
    | Some parser =>
        let root := parser contents in
        let (chunks, h) := eachTopLevel contents (children root) h in
        (Code.mkRun (Code.GetParser filepath :: Code.Parse contents
                       :: map Code.Yield chunks)
                    Code.Returned, h)
    end.
End Chunker.

(** A variant for comparison, not in the source: the array is created
    once, outside [collapseMethodBody], and every call works on that same
    array. *)
Definition collapseMethodBodyShared (collapseds : Store.Ref) (node : SyntaxNode)
    (code : string) (h : Store.Heap) : string * Store.Heap :=
  let h := collectMethodCollapsedsRecursively node (startIndex node) collapseds h in
  let h := Store.sortInPlace collapseds (fun a b => (start b - start a)%Z) h in
  (fold_left Code.applyCollapsed (Store.read collapseds h) code, h).

End Stateful.

(* ------------------------------------------------------------------ *)
(** ** core/util/javaCodeUtil.ts *)

Module JavaCodeUtil.

(** [Array.prototype.join] *)
Fixpoint join (sep : string) (l : list string) : string :=
  match l with
  | [] => ""
  | [x] => x
  | x :: rest => x ++ sep ++ join sep rest
  end.

(** [JAVA_NODE_TYPES] comes from ../indexing/chunk/javaCode, which is
    not among the sources; its [PACKAGE] tag is a parameter here. *)
Definition getPackageName (PACKAGE : string) (node : Cursor) : option string :=
  let current := rootOf node in
  match find (fun child => type child =? PACKAGE) (children current) with
  | Some packageDecl =>
      let identifiers :=
        map text (filter (fun child => type child =? "identifier")
                         (children packageDecl)) in
      Some (join "." identifiers)
  | None => None
  end.

Definition getNodeContent (node : SyntaxNode) (code : string) : string :=
  JS.slice code (startIndex node) (endIndex node).

(** [node.children.find(child => child.type === "identifier")?.text] *)
Definition identifierText (node : SyntaxNode) : option string :=
  option_map text (find (fun child => type child =? "identifier") (children node)).

(** The loop of [getClassName] over [current = node.parent]: it stops
    at the first class declaration, whether or not that one has an
    identifier. *)
Fixpoint enclosingClassName (CLASS : string) (up : list SyntaxNode) : option string :=
  match up with
  | [] => None
  | current :: up' =>
      if type current =? CLASS then identifierText current
      else enclosingClassName CLASS up'
  end.

(** [JAVA_NODE_TYPES.CLASS] is a parameter, as [PACKAGE] is. *)
Definition getClassName (CLASS PACKAGE : string) (node : Cursor) : option string :=
  let className :=
    if type (focus node) =? CLASS then identifierText (focus node)
    else enclosingClassName CLASS (ancestors node) in
  match className with
  | None => None
  | Some className =>
      if negb (JS.truthy className) then None
      else
        match getPackageName PACKAGE node with
        | Some packageName =>
            if JS.truthy packageName then Some (packageName ++ "." ++ className)
            else Some className
        | None => Some className
        end
  end.

Definition getInnerClassName (node : SyntaxNode) (outerClassName : string) : option string :=
  match find (fun child => type child =? "identifier") (children node) with
  | Some identifier => Some (outerClassName ++ "." ++ text identifier)
  | None => None
  end.

End JavaCodeUtil.

(* ------------------------------------------------------------------ *)
(** ** core/context/providers/CodeTraceContextProvider.ts *)

Module CodeTraceContextProvider.

Definition CODE_TRACE_DIR := ".codetrace".

(** [s.endsWith(suffix)] *)
Definition endsWith (s suffix : string) : bool :=
  (String.length suffix <=? String.length s)%nat
  && (JS.drop (String.length s - String.length suffix) s =? suffix).

Section LoadSubmenuItems.
(** What [trace.name] and [trace.description] evaluate to. *)
Variable Field : Type.

Record ContextSubmenuItem : Type := mkItem {
  id : string;
  title : Field;
  description : Field
}.

(** The IDE and the helpers outside the sources.  The calls made before
    the loop are taken to resolve; those inside [try] may throw, which is
    [None]: [readFile] rejecting, and [JSON.parse(content)] or the reads
    of [name] and [description] throwing. *)
Variable FileType_File : Z.
Variable joinPathsToUri : option string -> string -> string.
Variable getWorkspaceDirs : list string.
Variable fileExists : string -> bool.
Variable listDir : string -> list (string * Z).
Variable readFile : string -> option string.
Variable parseTrace : string -> option (Field * Field).

(** One turn of the loop over [files]. *)
Definition loadFile (codeTraceDir : string) (submenuItems : list ContextSubmenuItem)
    (file : string * Z) : list ContextSubmenuItem :=
  if negb (snd file =? FileType_File)%Z || negb (endsWith (fst file) ".json")
  then submenuItems
  else
    match readFile (joinPathsToUri (Some codeTraceDir) (fst file)) with
    | None => submenuItems
    | Some content =>
        match parseTrace content with
        | None => submenuItems
        | Some (name, desc) =>
            (submenuItems ++ [mkItem (fst file) name desc])%list
        end
    end.

Definition loadSubmenuItems : list ContextSubmenuItem :=
  let workspace := hd_error getWorkspaceDirs in
  let codeTraceDir := joinPathsToUri workspace CODE_TRACE_DIR in
  if negb (fileExists codeTraceDir) then []
  else
    let files := listDir codeTraceDir in
    fold_left (loadFile codeTraceDir) files [].
End LoadSubmenuItems.

End CodeTraceContextProvider.

(* ------------------------------------------------------------------ *)
(** ** Notions the statements use *)

(** The invariant of the tree provider on byte offsets: a node's range
    is not reversed, its children lie inside it, one after the other, and
    a block is at least as wide as a brace. *)
Fixpoint inOrder (lo hi : Z) (l : list SyntaxNode) : bool :=
  match l with
  | [] => (lo <=? hi)%Z
  | c :: rest => (lo <=? startIndex c)%Z && inOrder (endIndex c) hi rest
  end.

Fixpoint offsetsNested (n : SyntaxNode) : bool :=
  match n with
  | mkNode ty _ s e _ _ cs =>
      (if ty =? NODE_TYPES.BLOCK then (s <? e)%Z else (s <=? e)%Z)
      && inOrder s e cs && forallb offsetsNested cs
  end.

(** The invariant on rows: no node ends above the row it starts on. *)
Fixpoint rowsOrdered (n : SyntaxNode) : bool :=
  match n with
  | mkNode _ _ _ _ r1 r2 cs => (r1 <=? r2)%nat && forallb rowsOrdered cs
  end.

Definition isBlank (s : string) : bool :=
  (String.length (JS.trim s) =? 0)%nat.

Fixpoint allWhiteSpace (s : string) : bool :=
  match s with
  | EmptyString => true
  | String c s' => JS.isWhiteSpace c && allWhiteSpace s'
  end.

Definition firstClassBody (node : SyntaxNode) : option SyntaxNode :=
  if Code.isClassOrInterfaceBody node then Some node
  else find Code.isClassOrInterfaceBody (children node).

(** The members found by descending through class and interface bodies,
    nested ones included, in document order; [wanted] says which member
    declarations count, and a member that counts is not descended into. *)
Fixpoint membersBy (wanted : SyntaxNode -> bool) (node : SyntaxNode) : list SyntaxNode :=
  let eachChild :=
    fix eachChild (l : list SyntaxNode) : list SyntaxNode :=
      match l with
      | [] => []
      | child :: rest =>
          ((if wanted child || Code.isClassOrInterface child
            then membersBy wanted child else [])
             ++ eachChild rest)%list
      end in
  if wanted node then [node]
  else
    match node with
    | mkNode _ _ _ _ _ _ cs =>
        if Code.isClassOrInterfaceBody node then eachChild cs
        else
          (fix firstBody (l : list SyntaxNode) : list SyntaxNode :=
             match l with
             | [] => []
             | c :: rest =>
                 if Code.isClassOrInterfaceBody c
                 then match c with
                      | mkNode _ _ _ _ _ _ bodyChildren => eachChild bodyChildren
                      end
                 else firstBody rest
             end) cs
    end.

Definition isMethod (n : SyntaxNode) : bool := type n =? NODE_TYPES.METHOD.

Definition isMethodOrConstructor (n : SyntaxNode) : bool :=
  (type n =? NODE_TYPES.METHOD) || (type n =? NODE_TYPES.CONSTRUCTOR).

(** The method declarations of a type, nested types included. *)
Definition methodsOf (node : SyntaxNode) : list SyntaxNode :=
  membersBy isMethod node.

(** The same, counting constructors. *)
Definition methodsAndConstructorsOf (node : SyntaxNode) : list SyntaxNode :=
  membersBy isMethodOrConstructor node.

(** [member n m]: the method declaration [m] belongs to [n], directly or
    through nested class and interface declarations. *)
Inductive member : SyntaxNode -> SyntaxNode -> Prop :=
| member_self n : isMethod n = true -> member n n
| member_nested n body child m :
    isMethod n = false ->
    firstClassBody n = Some body ->
    In child (children body) ->
    isMethod child || Code.isClassOrInterface child = true ->
    member child m ->
    member n m.

Definition multiRow (n : SyntaxNode) : bool :=
  negb (startRow n =? endRow n)%nat.

(** The executable body of a method or constructor declaration. *)
Definition bodyOf (m : SyntaxNode) : option SyntaxNode :=
  find (fun n => (type n =? NODE_TYPES.BLOCK) || (type n =? "constructor_body"))
       (children m).

Definition placeholder (m : SyntaxNode) : string :=
  "{ id:" ++ Code.getMethodIdentifier m ++ " }".

(** The replacements of a skeleton: one per method that has a block,
    with offsets relative to [baseOffset]. *)
Definition bodySpans (baseOffset : Z) (node : SyntaxNode) : list MethodCollapsed :=
  flat_map
    (fun m =>
       match find (fun n => type n =? NODE_TYPES.BLOCK) (children m) with
       | Some b => [mkCollapsed (startIndex b - baseOffset) (endIndex b - baseOffset)
                                (placeholder m)]
       | None => []
       end)
    (methodsOf node).

(** The text with every span replaced, read off in one forward pass:
    what lies between two spans is copied verbatim. *)
Fixpoint replaceSpans (text : string) (cursor : Z) (spans : list MethodCollapsed) : string :=
  match spans with
  | [] => JS.sliceFrom text cursor
  | sp :: rest =>
      JS.slice text cursor (start sp) ++ collapsedStr sp
        ++ replaceSpans text (end_ sp) rest
  end.

(** The skeleton chunk of a top-level type, as the specification words it. *)
Definition skeletonOf (contents : string) (node : SyntaxNode) : JavaChunkWithoutID :=
  {| content :=
       JS.slice contents 0 (startIndex node)
         ++ replaceSpans (JS.slice contents (startIndex node) (endIndex node)) 0
              (bodySpans (startIndex node) node);
     startLine := 0;
     endLine := endRow node;
     methodIdentifier := None;
     chunkType := class_definition |}.

(** The comparator of [collapseMethodBody]. *)
Definition byStartDescending (a b : MethodCollapsed) : Z := (start b - start a)%Z.

(** Spans that follow one another between [lo] and [hi], none empty. *)
Fixpoint chain (lo hi : Z) (l : list MethodCollapsed) : Prop :=
  match l with
  | [] => (lo <= hi)%Z
  | sp :: rest =>
      (lo <= start sp)%Z /\ (start sp < end_ sp)%Z /\ chain (end_ sp) hi rest
  end.

(** [a] occurs in [s]. *)
Definition occursIn (a s : string) : Prop :=
  exists l r, s = l ++ a ++ r.

(* ------------------------------------------------------------------ *)
(** ** Sample files, with trees of the shape tree-sitter-java gives them *)

(** Row of a byte offset: the number of line feeds before it. *)
Fixpoint countLF (s : string) : nat :=
  match s with
  | EmptyString => 0
  | String c s' => (if (nat_of_ascii c =? 10)%nat then 1 else 0) + countLF s'
  end.

Definition rowAt (code : string) (i : Z) : nat :=
  countLF (JS.take (Z.to_nat i) code).

(** A node of the tree of [code]: text and rows follow from the range. *)
Definition nodeOf (code ty : string) (s e : Z) (cs : list SyntaxNode) : SyntaxNode :=
  mkNode ty (JS.slice code s e) s e (rowAt code s) (rowAt code e) cs.

Definition nth_child (i : nat) (n : SyntaxNode) : SyntaxNode :=
  nth i (children n) n.

(** Every provider that parses [code] to [root], whatever the path. *)
Definition providerOf (root : SyntaxNode) : string -> option (string -> SyntaxNode) :=
  fun _ => Some (fun _ => root).

Definition noProvider : string -> option (string -> SyntaxNode) :=
  fun _ => None.

(** The concrete scenario of the specification: two constructors, a
    method and a nested class with a method, each body on two rows. *)
Module Scenario.
Definition code : string :=
"package com.example.test;
class Outer {
  Outer() {
  }
  Outer(String s) {
  }
  void m() {
  }
  static class Inner {
    static void im() {
    }
  }
}".

Definition nd := nodeOf code.

Definition root : SyntaxNode :=
  nd "program" 0 154 [
    nd "package_declaration" 0 25 [
      nd "package" 0 7 [];
      nd "scoped_identifier" 8 24 [
        nd "scoped_identifier" 8 19 [
          nd "identifier" 8 11 [];
          nd "." 11 12 [];
          nd "identifier" 12 19 [] ];
        nd "." 19 20 [];
        nd "identifier" 20 24 [] ];
      nd ";" 24 25 [] ];
    nd "class_declaration" 26 154 [
      nd "class" 26 31 [];
      nd "identifier" 32 37 [];
      nd "class_body" 38 154 [
        nd "{" 38 39 [];
        nd "constructor_declaration" 42 55 [
          nd "identifier" 42 47 [];
          nd "formal_parameters" 47 49 [];
          nd "constructor_body" 50 55 [
            nd "{" 50 51 [];
            nd "}" 54 55 [] ] ];
        nd "constructor_declaration" 58 79 [
          nd "identifier" 58 63 [];
          nd "formal_parameters" 63 73 [
            nd "(" 63 64 [];
            nd "formal_parameter" 64 72 [
              nd "type_identifier" 64 70 [];
              nd "identifier" 71 72 [] ];
            nd ")" 72 73 [] ];
          nd "constructor_body" 74 79 [
            nd "{" 74 75 [];
            nd "}" 78 79 [] ] ];
        nd "method_declaration" 82 96 [
          nd "void_type" 82 86 [];
          nd "identifier" 87 88 [];
          nd "formal_parameters" 88 90 [];
          nd "block" 91 96 [
            nd "{" 91 92 [];
            nd "}" 95 96 [] ] ];
        nd "class_declaration" 99 152 [
          nd "modifiers" 99 105 [
            nd "static" 99 105 [] ];
          nd "class" 106 111 [];
          nd "identifier" 112 117 [];
          nd "class_body" 118 152 [
            nd "{" 118 119 [];
            nd "method_declaration" 124 148 [
              nd "modifiers" 124 130 [
                nd "static" 124 130 [] ];
              nd "void_type" 131 135 [];
              nd "identifier" 136 138 [];
              nd "formal_parameters" 138 140 [];
              nd "block" 141 148 [
                nd "{" 141 142 [];
                nd "}" 147 148 [] ] ];
            nd "}" 151 152 [] ] ];
        nd "}" 153 154 [] ] ] ].
End Scenario.

(** Three levels of nested classes under a package. *)
Module Nesting.
Definition code : string :=
"package pkg;
class Outer {
  class Inner {
    class Deepest {
    }
  }
}".

Definition nd := nodeOf code.

Definition root : SyntaxNode :=
  nd "program" 0 74 [
    nd "package_declaration" 0 12 [
      nd "package" 0 7 [];
      nd "identifier" 8 11 [];
      nd ";" 11 12 [] ];
    nd "class_declaration" 13 74 [
      nd "class" 13 18 [];
      nd "identifier" 19 24 [];
      nd "class_body" 25 74 [
        nd "{" 25 26 [];
        nd "class_declaration" 29 72 [
          nd "class" 29 34 [];
          nd "identifier" 35 40 [];
          nd "class_body" 41 72 [
            nd "{" 41 42 [];
            nd "class_declaration" 47 68 [
              nd "class" 47 52 [];
              nd "identifier" 53 60 [];
              nd "class_body" 61 68 [
                nd "{" 61 62 [];
                nd "}" 67 68 [] ] ];
            nd "}" 71 72 [] ] ];
        nd "}" 73 74 [] ] ] ].
End Nesting.

(** A method whose signature wraps onto a second row and whose body
    stays on that row. *)
Module Wrapped.
Definition code : string :=
"class A {
  void m(
      int x) { }
}".

Definition nd := nodeOf code.

Definition root : SyntaxNode :=
  nd "program" 0 38 [
    nd "class_declaration" 0 38 [
      nd "class" 0 5 [];
      nd "identifier" 6 7 [];
      nd "class_body" 8 38 [
        nd "{" 8 9 [];
        nd "method_declaration" 12 36 [
          nd "void_type" 12 16 [];
          nd "identifier" 17 18 [];
          nd "formal_parameters" 18 32 [
            nd "(" 18 19 [];
            nd "formal_parameter" 26 31 [
              nd "integral_type" 26 29 [];
              nd "identifier" 30 31 [] ];
            nd ")" 31 32 [] ];
          nd "block" 33 36 [
            nd "{" 33 34 [];
            nd "}" 35 36 [] ] ];
        nd "}" 37 38 [] ] ] ].
End Wrapped.

(** No package declaration at the top, one inside a method body. *)
Module Stray.
Definition code : string :=
"class A {
  void m() {
    package foo;
  }
}".

Definition nd := nodeOf code.

Definition root : SyntaxNode :=
  nd "program" 0 45 [
    nd "class_declaration" 0 45 [
      nd "class" 0 5 [];
      nd "identifier" 6 7 [];
      nd "class_body" 8 45 [
        nd "{" 8 9 [];
        nd "method_declaration" 12 43 [
          nd "void_type" 12 16 [];
          nd "identifier" 17 18 [];
          nd "formal_parameters" 18 20 [];
          nd "block" 21 43 [
            nd "{" 21 22 [];
            nd "package_declaration" 27 39 [
              nd "package" 27 34 [];
              nd "identifier" 35 38 [];
              nd ";" 38 39 [] ];
            nd "}" 42 43 [] ] ];
        nd "}" 44 45 [] ] ] ].
End Stray.

(** A method on one row next to a method on two. *)
Module OneLiner.
Definition code : string :=
"class A {
  int f() { return 1; }
  void g() {
  }
}".

Definition nd := nodeOf code.

Definition root : SyntaxNode :=
  nd "program" 0 52 [
    nd "class_declaration" 0 52 [
      nd "class" 0 5 [];
      nd "identifier" 6 7 [];
      nd "class_body" 8 52 [
        nd "{" 8 9 [];
        nd "method_declaration" 12 33 [
          nd "integral_type" 12 15 [];
          nd "identifier" 16 17 [];
          nd "formal_parameters" 17 19 [];
          nd "block" 20 33 [
            nd "{" 20 21 [];
            nd "return_statement" 22 31 [
              nd "return" 22 28 [];
              nd "decimal_integer_literal" 29 30 [];
              nd ";" 30 31 [] ];
            nd "}" 32 33 [] ] ];
        nd "method_declaration" 36 50 [
          nd "void_type" 36 40 [];
          nd "identifier" 41 42 [];
          nd "formal_parameters" 42 44 [];
          nd "block" 45 50 [
            nd "{" 45 46 [];
            nd "}" 49 50 [] ] ];
        nd "}" 51 52 [] ] ] ].
End OneLiner.

(* ------------------------------------------------------------------ *)
(** ** Named nodes of the samples *)

Module ScenarioNodes.
Import Scenario.
Definition outer : SyntaxNode := nth_child 1 root.
Definition outerBody : SyntaxNode := nth_child 2 outer.
Definition constructor1 : SyntaxNode := nth_child 1 outerBody.
Definition constructor2 : SyntaxNode := nth_child 2 outerBody.
Definition m : SyntaxNode := nth_child 3 outerBody.
Definition run : Code.Run :=
  Code.codeChunker (providerOf root) "Outer.java" code.
End ScenarioNodes.

Module NestingNodes.
Import Nesting.
Definition outer : SyntaxNode := nth_child 1 root.
Definition outerBody : SyntaxNode := nth_child 2 outer.
Definition inner : SyntaxNode := nth_child 1 outerBody.
Definition innerBody : SyntaxNode := nth_child 2 inner.
Definition deepest : SyntaxNode := nth_child 1 innerBody.
Definition atOuter : Cursor := mkCursor outer [root].
Definition atInner : Cursor := mkCursor inner [outerBody; outer; root].
Definition atDeepest : Cursor :=
  mkCursor deepest [innerBody; inner; outerBody; outer; root].
End NestingNodes.

Module WrappedNodes.
Import Wrapped.
Definition a : SyntaxNode := nth_child 0 root.
Definition m : SyntaxNode := nth_child 1 (nth_child 2 a).
Definition body : SyntaxNode := nth_child 3 m.
Definition run : Code.Run :=
  Code.codeChunker (providerOf root) "A.java" code.
End WrappedNodes.

Module OneLinerNodes.
Import OneLiner.
Definition a : SyntaxNode := nth_child 0 root.
Definition f : SyntaxNode := nth_child 1 (nth_child 2 a).
Definition fBody : SyntaxNode := nth_child 3 f.
Definition run : Code.Run :=
  Code.codeChunker (providerOf root) "A.java" code.
End OneLinerNodes.

Module StrayNodes.
Import Stray.
Definition a : SyntaxNode := nth_child 0 root.
Definition atA : Cursor := mkCursor a [root].
End StrayNodes.

(* ------------------------------------------------------------------ *)
(** ** Properties of runs and chunks *)

(** What every emitted chunk satisfies, by its tag. *)
Definition chunkInvariant (c : JavaChunkWithoutID) : Prop :=
  match chunkType c with
  | method_definition => startLine c < endLine c /\ methodIdentifier c <> None
  | class_definition => startLine c <= endLine c /\ methodIdentifier c = None
  end.

(** Two providers that hand out the same tree for this file, or both
    none. *)
Definition sameTree (p1 p2 : string -> option (string -> SyntaxNode))
    (filepath contents : string) : Prop :=
  match p1 filepath, p2 filepath with
  | Some parser1, Some parser2 => parser1 contents = parser2 contents
  | None, None => True
  | _, _ => False
  end.

(** The run that throws for want of a parser, having yielded nothing. *)
Definition failedRun (filepath : string) : Code.Run :=
  Code.mkRun [Code.GetParser filepath]
             (Code.Thrown ("Failed to load parser for file " ++ filepath)).

(** The run that ends at once: no provider call, no chunk, no error. *)
Definition emptyRun : Code.Run := Code.mkRun [] Code.Returned.

(** A child of the root that contributes no chunk by its tag. *)
Definition isIgnoredTopLevel (n : SyntaxNode) : bool :=
  negb (Code.isClassOrInterface n)
  && negb ((NODE_TYPES.ENUM =? type n) || (NODE_TYPES.ANNOTATION =? type n)).

(* ------------------------------------------------------------------ *)
(** ** Further notions *)

(** The nodes of a tree in document order, the node itself first. *)
Fixpoint preorder (n : SyntaxNode) : list SyntaxNode :=
  match n with
  | mkNode _ _ _ _ _ _ cs => n :: flat_map preorder cs
  end.

Definition hasType (ty : string) (n : SyntaxNode) : bool := type n =? ty.

(** [c] does not occur in [s]. *)
Fixpoint lacks (c : ascii) (s : string) : bool :=
  match s with
  | EmptyString => true
  | String d s' => negb (Ascii.eqb d c) && lacks c s'
  end.

(** A cursor of the tree under [root]: every node of the chain is a child
    of the next, and the chain ends at [root]. *)
Fixpoint chainTo (root n : SyntaxNode) (up : list SyntaxNode) : Prop :=
  match up with
  | [] => n = root
  | p :: up' => In n (children p) /\ chainTo root p up'
  end.

Definition cursorIn (root : SyntaxNode) (c : Cursor) : Prop :=
  chainTo root (focus c) (ancestors c).

(** A top-level declaration that gets a class_definition chunk. *)
Definition isTopLevelType (n : SyntaxNode) : bool :=
  Code.isClassOrInterface n
  || (NODE_TYPES.ENUM =? type n) || (NODE_TYPES.ANNOTATION =? type n).

Definition isClassDefinition (c : JavaChunkWithoutID) : bool :=
  match chunkType c with class_definition => true | method_definition => false end.

Definition hasBlock (m : SyntaxNode) : bool :=
  match find (fun n => type n =? NODE_TYPES.BLOCK) (children m) with
  | Some _ => true
  | None => false
  end.

(** An interface whose methods have no body. *)
Module Abstract.
Definition code : string :=
"interface I {
  void a();
  int b();
}".

Definition nd := nodeOf code.

Definition root : SyntaxNode :=
  nd "program" 0 38 [
    nd "interface_declaration" 0 38 [
      nd "interface" 0 9 [];
      nd "identifier" 10 11 [];
      nd "interface_body" 12 38 [
        nd "{" 12 13 [];
        nd "method_declaration" 16 25 [
          nd "void_type" 16 20 [];
          nd "identifier" 21 22 [];
          nd "formal_parameters" 22 24 [];
          nd ";" 24 25 [] ];
        nd "method_declaration" 28 36 [
          nd "integral_type" 28 31 [];
          nd "identifier" 32 33 [];
          nd "formal_parameters" 33 35 [];
          nd ";" 35 36 [] ];
        nd "}" 37 38 [] ] ] ].
End Abstract.

(** A class under an annotation. *)
Module Annotated.
Definition code : string :=
"@Deprecated
class X {
}".

Definition nd := nodeOf code.

Definition root : SyntaxNode :=
  nd "program" 0 23 [
    nd "class_declaration" 0 23 [
      nd "modifiers" 0 11 [
        nd "marker_annotation" 0 11 [
          nd "@" 0 1 [];
          nd "identifier" 1 11 [] ] ];
      nd "class" 12 17 [];
      nd "identifier" 18 19 [];
      nd "class_body" 20 23 [
        nd "{" 20 21 [];
        nd "}" 22 23 [] ] ] ].
End Annotated.

(** A directory listing with a trace, a text file, a directory named like
    a trace and a trace that does not parse; a file's content is its own
    path. *)
Module SampleIde.
Definition joinPathsToUri (base : option string) (segment : string) : string :=
  match base with
  | Some b => b ++ "/" ++ segment
  | None => segment
  end.
Definition getWorkspaceDirs : list string := ["file:///w"].
Definition fileExists (path : string) : bool := true.
Definition listDir (path : string) : list (string * Z) :=
  [("login.json", 1%Z); ("notes.txt", 1%Z); ("old.json", 2%Z);
   ("broken.json", 1%Z)].
Definition readFile (path : string) : option string := Some path.
Definition parseTrace (content : string) : option (string * string) :=
  if CodeTraceContextProvider.endsWith content "broken.json" then None
  else Some ("trace", content).
End SampleIde.

Module MoreNodes.
Definition inner : SyntaxNode := nth_child 4 ScenarioNodes.outerBody.
Definition im : SyntaxNode := nth_child 1 (nth_child 3 inner).
Definition i : SyntaxNode := nth_child 0 Abstract.root.
Definition atIm : Cursor :=
  mkCursor im [nth_child 3 inner; inner; ScenarioNodes.outerBody;
               ScenarioNodes.outer; Scenario.root].
Definition atInnerClass : Cursor :=
  mkCursor inner [ScenarioNodes.outerBody; ScenarioNodes.outer; Scenario.root].
Definition atI : Cursor := mkCursor i [Abstract.root].
Definition abstractRun : Code.Run :=
  Code.codeChunker (providerOf Abstract.root) "I.java" Abstract.code.
Definition x : SyntaxNode := nth_child 0 Annotated.root.
Definition atOneLinerA : Cursor := mkCursor OneLinerNodes.a [OneLiner.root].
End MoreNodes.

(** [n] without its child number [i]. *)
Definition withoutChild (i : nat) (n : SyntaxNode) : SyntaxNode :=
  mkNode (type n) (text n) (startIndex n) (endIndex n) (startRow n) (endRow n)
         (firstn i (children n) ++ skipn (S i) (children n)).

(* ------------------------------------------------------------------ *)
(** ** Strings: [take], [drop] and [slice] *)

Module JSFacts.
Import JS.

Lemma append_nil_r (s : string) : s ++ "" = s.
Proof. induction s; simpl; congruence. Qed.

Lemma append_assoc (a b c : string) : (a ++ b) ++ c = a ++ b ++ c.
Proof. induction a; simpl; congruence. Qed.

Lemma length_append (a b : string) :
  String.length (a ++ b) = String.length a + String.length b.
Proof. induction a; simpl; congruence. Qed.

Lemma take_0 (s : string) : take 0 s = "".
Proof. destruct s; reflexivity. Qed.

Lemma take_all (s : string) n : String.length s <= n -> take n s = s.
Proof.
  revert n; induction s as [|c s IH]; intros [|n] H; simpl in *;
    try reflexivity; try lia.
  f_equal; apply IH; lia.
Qed.

Lemma take_drop (s : string) n : take n s ++ drop n s = s.
Proof.
  revert n; induction s as [|c s IH]; intros [|n]; simpl; try reflexivity.
  f_equal; apply IH.
Qed.

Lemma length_take (s : string) n :
  String.length (take n s) = Nat.min n (String.length s).
Proof.
  revert n; induction s as [|c s IH]; intros [|n]; simpl; try reflexivity.
  f_equal; apply IH.
Qed.

Lemma length_drop (s : string) n :
  String.length (drop n s) = String.length s - n.
Proof.
  revert n; induction s as [|c s IH]; intros [|n]; simpl; try reflexivity.
  apply IH.
Qed.

Lemma take_append_le (a b : string) n :
  n <= String.length a -> take n (a ++ b) = take n a.
Proof.
  revert n; induction a as [|c a IH]; intros [|n] H; simpl in *;
    try lia; try apply take_0; try reflexivity.
  f_equal; apply IH; lia.
Qed.

Lemma drop_append_length (a b : string) : drop (String.length a) (a ++ b) = b.
Proof. induction a; simpl; [destruct b; reflexivity | assumption]. Qed.

Lemma take_take (s : string) n m : n <= m -> take n (take m s) = take n s.
Proof.
  revert n m; induction s as [|c s IH]; intros [|n] [|m] H; simpl;
    try reflexivity; try lia.
  f_equal; apply IH; lia.
Qed.

Lemma take_split (s : string) a b :
  a <= b -> take a s ++ take (b - a) (drop a s) = take b s.
Proof.
  revert a b; induction s as [|c s IH]; intros [|a] [|b] H; simpl;
    try reflexivity; try lia.
  - destruct (b - a); reflexivity.
  - f_equal; apply IH; lia.
Qed.

Lemma drop_0 (s : string) : drop 0 s = s.
Proof. destruct s; reflexivity. Qed.

(** Inside the string, [slice] is [take] after [drop]. *)
Lemma slice_inside (s : string) (a b : Z) :
  (0 <= a <= b)%Z -> (b <= Z.of_nat (String.length s))%Z ->
  slice s a b = take (Z.to_nat b - Z.to_nat a) (drop (Z.to_nat a) s).
Proof.
  intros Hab Hb. unfold slice, clampIndex.
  destruct (Z.ltb_spec a 0); [lia|].
  destruct (Z.ltb_spec b 0); [lia|].
  rewrite !Z.min_l by lia. f_equal. lia.
Qed.

Lemma slice_prefix (s : string) (b : Z) :
  (0 <= b)%Z -> (b <= Z.of_nat (String.length s))%Z ->
  slice s 0 b = take (Z.to_nat b) s.
Proof.
  intros H0 Hb. rewrite slice_inside by lia.
  change (Z.to_nat 0) with 0. rewrite Nat.sub_0_r, drop_0. reflexivity.
Qed.

Lemma length_slice (s : string) (a b : Z) :
  (0 <= a <= b)%Z -> (b <= Z.of_nat (String.length s))%Z ->
  Z.of_nat (String.length (slice s a b)) = (b - a)%Z.
Proof.
  intros Hab Hb. rewrite slice_inside by assumption.
  rewrite length_take, length_drop. lia.
Qed.

Lemma slice_whole (s : string) : slice s 0 (Z.of_nat (String.length s)) = s.
Proof.
  rewrite slice_prefix by lia. apply take_all. lia.
Qed.

Lemma slice_split (s : string) (a b : Z) :
  (0 <= a <= b)%Z -> (b <= Z.of_nat (String.length s))%Z ->
  slice s 0 a ++ slice s a b = slice s 0 b.
Proof.
  intros Hab Hb. rewrite !slice_prefix by lia.
  rewrite slice_inside by lia. apply take_split. lia.
Qed.

Lemma slice_rest (s : string) (a : Z) :
  (0 <= a)%Z -> (a <= Z.of_nat (String.length s))%Z ->
  slice s 0 a ++ sliceFrom s a = s.
Proof.
  intros H0 Ha. unfold sliceFrom. rewrite slice_split by lia.
  apply slice_whole.
Qed.

Lemma slice_append_prefix (x y : string) (a : Z) :
  (0 <= a)%Z -> (a <= Z.of_nat (String.length x))%Z ->
  slice (x ++ y) 0 a = slice x 0 a.
Proof.
  intros H0 Ha. rewrite !slice_prefix by (rewrite ?length_append; lia).
  apply take_append_le. lia.
Qed.

Lemma slice_slice_prefix (s : string) (a b : Z) :
  (0 <= a <= b)%Z -> (b <= Z.of_nat (String.length s))%Z ->
  slice (slice s 0 b) 0 a = slice s 0 a.
Proof.
  intros Hab Hb.
  rewrite (slice_prefix (slice s 0 b))
    by (rewrite ?length_slice; lia).
  rewrite !slice_prefix by lia. apply take_take. lia.
Qed.

Lemma sliceFrom_append (x y : string) (n : Z) :
  Z.of_nat (String.length x) = n -> sliceFrom (x ++ y) n = y.
Proof.
  intros <-. unfold sliceFrom. rewrite slice_inside by (rewrite ?length_append; lia).
  rewrite !Nat2Z.id, drop_append_length. apply take_all.
  rewrite length_append. lia.
Qed.

End JSFacts.

(* ------------------------------------------------------------------ *)
(** ** Sorting bottom-up and splicing *)

Module SpliceFacts.
Import JS JSFacts.

Lemma chain_bounds lo hi l : chain lo hi l -> (lo <= hi)%Z.
Proof.
  revert lo; induction l as [|sp l IH]; simpl; intros lo H; [assumption|].
  destruct H as (H1 & H2 & H3). apply IH in H3. lia.
Qed.

Lemma chain_starts lo hi l :
  chain lo hi l -> Forall (fun sp => (lo <= start sp)%Z) l.
Proof.
  revert lo; induction l as [|sp l IH]; simpl; intros lo H; constructor.
  - tauto.
  - destruct H as (H1 & H2 & H3). apply IH in H3.
    eapply Forall_impl; [|exact H3]. simpl; intros; lia.
Qed.

Lemma chain_widen lo lo' hi hi' l :
  (lo' <= lo)%Z -> (hi <= hi')%Z -> chain lo hi l -> chain lo' hi' l.
Proof.
  revert lo lo'; induction l as [|sp l IH]; simpl; intros lo lo' Hlo Hhi H.
  - lia.
  - destruct H as (H1 & H2 & H3). repeat split; try lia.
    eapply IH; [| |exact H3]; lia.
Qed.

Lemma chain_app lo mid hi l1 l2 :
  chain lo mid l1 -> chain mid hi l2 -> chain lo hi (l1 ++ l2)%list.
Proof.
  revert lo; induction l1 as [|sp l1 IH]; simpl; intros lo H1 H2.
  - eapply chain_widen; [| |exact H2]; lia.
  - destruct H1 as (Ha & Hb & Hc). repeat split; auto.
Qed.

(** An element that sorts after all the others goes last. *)
Lemma insert_last (x : MethodCollapsed) l :
  Forall (fun y => (start x < start y)%Z) l ->
  insert byStartDescending x l = (l ++ [x])%list.
Proof.
  induction 1 as [|y l Hy Hl IH]; simpl; [reflexivity|].
  unfold byStartDescending at 1.
  destruct (Z.ltb_spec 0 (start y - start x)); [|lia].
  now rewrite IH.
Qed.

(** Spans in document order are sorted into the reverse order. *)
Lemma sort_chain lo hi l :
  chain lo hi l -> sort byStartDescending l = rev l.
Proof.
  revert lo; induction l as [|sp l IH]; simpl; intros lo H; [reflexivity|].
  destruct H as (H1 & H2 & H3).
  rewrite (IH _ H3). apply insert_last.
  apply Forall_rev. apply chain_starts in H3.
  eapply Forall_impl; [|exact H3]. simpl; intros; lia.
Qed.

(** Splicing bottom-up, as the code does, gives what one forward pass
    over the untouched text gives. *)
Lemma splice_bottom_up (txt : string) l : forall c,
  (0 <= c)%Z -> chain c (Z.of_nat (String.length txt)) l ->
  fold_left Code.applyCollapsed (rev l) txt
  = slice txt 0 c ++ replaceSpans txt c l.
Proof.
  induction l as [|sp l IH]; intros c Hc H; simpl in *.
  - symmetry. apply slice_rest; lia.
  - destruct H as (H1 & H2 & H3).
    pose proof (chain_bounds _ _ _ H3) as Hhi.
    rewrite fold_left_app. simpl.
    rewrite (IH (end_ sp)) by (try lia; assumption).
    unfold Code.applyCollapsed.
    rewrite slice_append_prefix by (rewrite ?length_slice; lia).
    rewrite slice_slice_prefix by lia.
    rewrite sliceFrom_append by (rewrite length_slice; lia).
    rewrite <- (slice_split txt c (start sp)) by lia.
    now rewrite append_assoc.
Qed.

End SpliceFacts.

(* ------------------------------------------------------------------ *)
(** ** The two recursive walks *)

Module WalkFacts.
Import JS JSFacts SpliceFacts.

Ltac fold_children :=
  match goal with
  | |- _ ?l ?a = fold_left _ ?l ?a =>
      generalize a; induction l as [|? ? IHl]; intro;
      [reflexivity | cbn [fold_left]; apply IHl]
  | |- _ ?l = flat_map _ ?l =>
      induction l as [|? ? IHl];
      [reflexivity | cbn [flat_map]; f_equal; apply IHl]
  end.

Ltac first_body cs :=
  induction cs as [|c cs IHcs]; cbn [find];
  [ reflexivity
  | destruct (Code.isClassOrInterfaceBody c);
    [ destruct c; cbn [children]; fold_children | apply IHcs ] ].

Lemma collectMethodCollapsedsRecursively_eq node base acc :
  Code.collectMethodCollapsedsRecursively node base acc =
  if Code.isCollapsedNode node then
    match Code.collectMethodCollapseds node base with
    | Some c => (acc ++ [c])%list
    | None => acc
    end
  else
    match firstClassBody node with
    | None => acc
    | Some classBody =>
        fold_left
          (fun acc child =>
             if Code.isVisitedChild child
             then Code.collectMethodCollapsedsRecursively child base acc
             else acc)
          (children classBody) acc
    end.
Proof.
  unfold firstClassBody.
  destruct node as [ty tx s e r1 r2 cs].
  cbn [Code.collectMethodCollapsedsRecursively children].
  destruct (Code.isCollapsedNode _); [reflexivity|].
  destruct (Code.isClassOrInterfaceBody (mkNode _ _ _ _ _ _ _)).
  - cbn [children]. fold_children.
  - first_body cs.
Qed.

Lemma chunkMethodRecursively_eq node :
  Code.chunkMethodRecursively node =
  if Code.isCollapsedNode node then
    if (startRow node =? endRow node)%nat then [] else [Code.methodChunk node]
  else
    match firstClassBody node with
    | None => []
    | Some classBody =>
        flat_map
          (fun child =>
             if Code.isVisitedChild child
             then Code.chunkMethodRecursively child
             else [])
          (children classBody)
    end.
Proof.
  unfold firstClassBody.
  destruct node as [ty tx s e r1 r2 cs].
  cbn [Code.chunkMethodRecursively children].
  destruct (Code.isCollapsedNode _); [reflexivity|].
  destruct (Code.isClassOrInterfaceBody (mkNode _ _ _ _ _ _ _)).
  - cbn [children]. fold_children.
  - first_body cs.
Qed.

Lemma membersBy_eq wanted node :
  membersBy wanted node =
  if wanted node then [node]
  else
    match firstClassBody node with
    | None => []
    | Some classBody =>
        flat_map
          (fun child =>
             if wanted child || Code.isClassOrInterface child
             then membersBy wanted child
             else [])
          (children classBody)
    end.
Proof.
  unfold firstClassBody.
  destruct node as [ty tx s e r1 r2 cs].
  cbn [membersBy children].
  destruct (wanted _); [reflexivity|].
  destruct (Code.isClassOrInterfaceBody (mkNode _ _ _ _ _ _ _)).
  - cbn [children]. fold_children.
  - first_body cs.
Qed.


Lemma body_not_method n :
  Code.isClassOrInterfaceBody n = true -> isMethod n = false.
Proof.
  unfold Code.isClassOrInterfaceBody, isMethod. intros H.
  apply orb_true_iff in H. destruct H as [H|H];
    apply String.eqb_eq in H; rewrite <- H; reflexivity.
Qed.

Lemma firstClassBody_self n :
  Code.isClassOrInterfaceBody n = true -> firstClassBody n = Some n.
Proof. unfold firstClassBody. now intros ->. Qed.

Lemma firstClassBody_found n cb :
  firstClassBody n = Some cb ->
  Code.isClassOrInterfaceBody cb = true /\ (cb = n \/ In cb (children n)).
Proof.
  unfold firstClassBody.
  destruct (Code.isClassOrInterfaceBody n) eqn:E; intros H.
  - inversion H; subst. auto.
  - apply find_some in H. tauto.
Qed.

(** A type declaration is walked as its first body is. *)
Lemma methodsOf_descend n cb :
  isMethod n = false -> firstClassBody n = Some cb ->
  methodsOf n = methodsOf cb.
Proof.
  intros Hn Hcb. destruct (firstClassBody_found _ _ Hcb) as [Hb _].
  unfold methodsOf. rewrite (membersBy_eq _ n), (membersBy_eq _ cb).
  now rewrite Hn, Hcb, (body_not_method _ Hb), (firstClassBody_self _ Hb).
Qed.

Lemma chunk_descend n cb :
  isMethod n = false -> firstClassBody n = Some cb ->
  Code.chunkMethodRecursively n = Code.chunkMethodRecursively cb.
Proof.
  intros Hn Hcb. destruct (firstClassBody_found _ _ Hcb) as [Hb _].
  rewrite (chunkMethodRecursively_eq n), (chunkMethodRecursively_eq cb).
  change Code.isCollapsedNode with isMethod.
  now rewrite Hn, Hcb, (body_not_method _ Hb), (firstClassBody_self _ Hb).
Qed.

Lemma collect_descend n cb base acc :
  isMethod n = false -> firstClassBody n = Some cb ->
  Code.collectMethodCollapsedsRecursively n base acc
  = Code.collectMethodCollapsedsRecursively cb base acc.
Proof.
  intros Hn Hcb. destruct (firstClassBody_found _ _ Hcb) as [Hb _].
  rewrite (collectMethodCollapsedsRecursively_eq n), (collectMethodCollapsedsRecursively_eq cb).
  change Code.isCollapsedNode with isMethod.
  now rewrite Hn, Hcb, (body_not_method _ Hb), (firstClassBody_self _ Hb).
Qed.

(** The three ways a node is walked: a method is a leaf of the walk, a
    body is walked child by child, anything else as its first body. *)
Lemma walk_ind (P : SyntaxNode -> Prop) :
  (forall n, isMethod n = true -> P n) ->
  (forall n, isMethod n = false -> Code.isClassOrInterfaceBody n = true ->
             Forall P (children n) -> P n) ->
  (forall n, isMethod n = false -> firstClassBody n = None -> P n) ->
  (forall n cb, isMethod n = false -> Code.isClassOrInterfaceBody n = false ->
                firstClassBody n = Some cb -> In cb (children n) -> P cb -> P n) ->
  forall n, P n.
Proof.
  intros Hm Hb Hnone Hdesc n.
  induction n as [ty tx s e r1 r2 cs IH] using SyntaxNode_ind.
  set (n := mkNode ty tx s e r1 r2 cs).
  destruct (isMethod n) eqn:Em; [now apply Hm|].
  destruct (Code.isClassOrInterfaceBody n) eqn:Eb; [now apply Hb|].
  destruct (firstClassBody n) as [cb|] eqn:Ef; [|now apply Hnone].
  destruct (firstClassBody_found _ _ Ef) as [Hcb [->|Hin]]; [congruence|].
  apply (Hdesc n cb); auto.
  rewrite Forall_forall in IH. now apply IH.
Qed.

Lemma isVisitedChild_wanted child :
  Code.isVisitedChild child = isMethod child || Code.isClassOrInterface child.
Proof. reflexivity. Qed.

(** The method chunks are those of the multi-row methods, in order. *)
Lemma chunkMethodRecursively_methodsOf n :
  Code.chunkMethodRecursively n
  = map Code.methodChunk (filter multiRow (methodsOf n)).
Proof.
  induction n as [n Hm|n Hm Hb IH|n Hm Hnone|n cb Hm Hb Hf Hin IH] using walk_ind.
  - rewrite chunkMethodRecursively_eq. unfold methodsOf. rewrite membersBy_eq.
    change Code.isCollapsedNode with isMethod. rewrite Hm.
    cbn [filter]. unfold multiRow.
    destruct (startRow n =? endRow n)%nat; reflexivity.
  - rewrite chunkMethodRecursively_eq. unfold methodsOf. rewrite membersBy_eq.
    change Code.isCollapsedNode with isMethod.
    rewrite Hm, (firstClassBody_self _ Hb).
    induction IH as [|c cs Hc Hcs IHcs]; [reflexivity|].
    cbn [flat_map]. rewrite filter_app, map_app, IHcs. f_equal.
    rewrite isVisitedChild_wanted.
    destruct (isMethod c || Code.isClassOrInterface c); [exact Hc|reflexivity].
  - rewrite chunkMethodRecursively_eq. unfold methodsOf. rewrite membersBy_eq.
    change Code.isCollapsedNode with isMethod. now rewrite Hm, Hnone.
  - now rewrite (chunk_descend n cb), (methodsOf_descend n cb).
Qed.

(** The replacements collected are those of the methods, in order,
    appended to what the array held. *)
Lemma collect_bodySpans n base : forall acc,
  Code.collectMethodCollapsedsRecursively n base acc
  = (acc ++ bodySpans base n)%list.
Proof.
  induction n as [n Hm|n Hm Hb IH|n Hm Hnone|n cb Hm Hb Hf Hin IH] using walk_ind;
    intros acc.
  - rewrite collectMethodCollapsedsRecursively_eq. unfold bodySpans, methodsOf. rewrite membersBy_eq.
    change Code.isCollapsedNode with isMethod. rewrite Hm.
    cbn [flat_map]. unfold Code.collectMethodCollapseds, placeholder.
    destruct (find _ (children n)); [now rewrite app_nil_r | now rewrite app_nil_r].
  - rewrite collectMethodCollapsedsRecursively_eq. unfold bodySpans, methodsOf. rewrite membersBy_eq.
    change Code.isCollapsedNode with isMethod.
    rewrite Hm, (firstClassBody_self _ Hb).
    revert acc. induction IH as [|c cs Hc Hcs IHcs]; intros acc.
    + cbn. now rewrite app_nil_r.
    + cbn [fold_left flat_map]. rewrite IHcs, flat_map_app, app_assoc.
      f_equal. rewrite isVisitedChild_wanted.
      destruct (isMethod c || Code.isClassOrInterface c).
      * apply Hc.
      * cbn. now rewrite app_nil_r.
  - rewrite collectMethodCollapsedsRecursively_eq. unfold bodySpans, methodsOf. rewrite membersBy_eq.
    change Code.isCollapsedNode with isMethod. rewrite Hm, Hnone.
    cbn. now rewrite app_nil_r.
  - rewrite (collect_descend n cb) by assumption. rewrite IH.
    unfold bodySpans. now rewrite (methodsOf_descend n cb).
Qed.

Lemma bodySpans_method base n :
  isMethod n = true ->
  bodySpans base n =
  match find (fun c => type c =? NODE_TYPES.BLOCK) (children n) with
  | Some b => [mkCollapsed (startIndex b - base) (endIndex b - base) (placeholder n)]
  | None => []
  end.
Proof.
  intros Hm. unfold bodySpans, methodsOf. rewrite membersBy_eq, Hm.
  cbn [flat_map]. now rewrite app_nil_r.
Qed.

Lemma bodySpans_body base n :
  isMethod n = false -> Code.isClassOrInterfaceBody n = true ->
  bodySpans base n =
  flat_map (fun c => if Code.isVisitedChild c then bodySpans base c else [])
           (children n).
Proof.
  intros Hm Hb. unfold bodySpans at 1, methodsOf.
  rewrite membersBy_eq, Hm, (firstClassBody_self _ Hb).
  induction (children n) as [|c cs IH]; [reflexivity|].
  cbn [flat_map]. rewrite flat_map_app, IH. f_equal.
  rewrite isVisitedChild_wanted.
  destruct (isMethod c || Code.isClassOrInterface c); reflexivity.
Qed.

Lemma offsetsNested_inv n :
  offsetsNested n = true ->
  (if type n =? NODE_TYPES.BLOCK then (startIndex n < endIndex n)%Z
   else (startIndex n <= endIndex n)%Z)
  /\ inOrder (startIndex n) (endIndex n) (children n) = true
  /\ Forall (fun c => offsetsNested c = true) (children n).
Proof.
  destruct n as [ty tx s e r1 r2 cs].
  cbn [offsetsNested type startIndex endIndex children].
  rewrite !andb_true_iff, forallb_forall, Forall_forall.
  intros [[H1 H2] H3]. repeat split; auto.
  destruct (ty =? NODE_TYPES.BLOCK); lia.
Qed.

Lemma offsetsNested_range n :
  offsetsNested n = true -> (startIndex n <= endIndex n)%Z.
Proof.
  intros H. apply offsetsNested_inv in H. destruct H as [H _].
  destruct (type n =? NODE_TYPES.BLOCK); lia.
Qed.

Lemma inOrder_In cs : forall lo hi c,
  inOrder lo hi cs = true ->
  Forall (fun c => offsetsNested c = true) cs ->
  In c cs -> (lo <= startIndex c)%Z /\ (endIndex c <= hi)%Z.
Proof.
  induction cs as [|d cs IH]; intros lo hi c Ho Hall Hin; [destruct Hin|].
  cbn [inOrder] in Ho. apply andb_true_iff in Ho. destruct Ho as [H1 H2].
  inversion Hall as [|? ? Hd Hcs]; subst.
  assert (Hend : (endIndex d <= hi)%Z).
  { clear - H2 Hcs. revert H2. generalize (endIndex d).
    induction Hcs as [|x l Hx Hl IHl]; cbn [inOrder]; intros z H.
    - lia.
    - apply andb_true_iff in H. destruct H as [Ha Hb].
      apply IHl in Hb. apply offsetsNested_range in Hx. lia. }
  destruct Hin as [->|Hin].
  - split; [lia|assumption].
  - destruct (IH _ _ _ H2 Hcs Hin) as [Ha Hb].
    apply offsetsNested_range in Hd. lia.
Qed.

Lemma chain_children base cs : forall lo hi,
  inOrder lo hi cs = true ->
  Forall (fun c => offsetsNested c = true) cs ->
  Forall (fun c => offsetsNested c = true ->
                   chain (startIndex c - base) (endIndex c - base)
                         (bodySpans base c)) cs ->
  chain (lo - base) (hi - base)
        (flat_map (fun c => if Code.isVisitedChild c then bodySpans base c else [])
                  cs).
Proof.
  induction cs as [|c cs IH]; intros lo hi Ho Hall HP; cbn [inOrder flat_map] in *.
  - cbn. lia.
  - apply andb_true_iff in Ho. destruct Ho as [H1 H2].
    inversion Hall as [|? ? Hc Hcs]; subst.
    inversion HP as [|? ? Pc Pcs]; subst.
    apply (chain_app _ (endIndex c - base)%Z).
    + pose proof (offsetsNested_range _ Hc).
      destruct (Code.isVisitedChild c).
      * eapply chain_widen; [| |exact (Pc Hc)]; lia.
      * cbn. lia.
    + now apply IH.
Qed.

(** In a well-nested tree the replacements follow one another inside
    the range of the node, in document order. *)
Lemma bodySpans_chain base n :
  offsetsNested n = true ->
  chain (startIndex n - base) (endIndex n - base) (bodySpans base n).
Proof.
  induction n as [n Hm|n Hm Hb IH|n Hm Hnone|n cb Hm Hb Hf Hin IH] using walk_ind;
    intros Hn; destruct (offsetsNested_inv _ Hn) as (Hr & Ho & Hall).
  - rewrite bodySpans_method by assumption.
    destruct (find _ (children n)) as [b|] eqn:Ef.
    + apply find_some in Ef. destruct Ef as [Hin Hty].
      destruct (inOrder_In _ _ _ _ Ho Hall Hin) as [Ha Hb].
      rewrite Forall_forall in Hall. specialize (Hall _ Hin).
      apply offsetsNested_inv in Hall. destruct Hall as [Hbr _].
      rewrite Hty in Hbr. cbn [chain start end_]. lia.
    + cbn. apply offsetsNested_range in Hn. lia.
  - rewrite bodySpans_body by assumption. now apply chain_children.
  - unfold bodySpans, methodsOf. rewrite membersBy_eq, Hm, Hnone.
    cbn. apply offsetsNested_range in Hn. lia.
  - unfold bodySpans. rewrite (methodsOf_descend n cb) by assumption.
    destruct (inOrder_In _ _ _ _ Ho Hall Hin) as [Ha Hc].
    rewrite Forall_forall in Hall.
    eapply chain_widen; [| |exact (IH (Hall _ Hin))]; lia.
Qed.

(** The skeleton the code builds is the one the specification words. *)
Lemma getCollapsedClassDefinition_skeletonOf node code :
  offsetsNested node = true ->
  (0 <= startIndex node)%Z ->
  (endIndex node <= Z.of_nat (String.length code))%Z ->
  Code.getCollapsedClassDefinition node code = skeletonOf code node.
Proof.
  intros Hn H0 Hlen. pose proof (offsetsNested_range _ Hn) as Hr.
  unfold Code.getCollapsedClassDefinition, skeletonOf. f_equal. f_equal.
  unfold Code.collapseMethodBody.
  rewrite collect_bodySpans. cbn [app].
  pose proof (bodySpans_chain (startIndex node) node Hn) as Hc.
  rewrite Z.sub_diag in Hc.
  change (fun a b : MethodCollapsed => (start b - start a)%Z) with byStartDescending.
  rewrite (sort_chain _ _ _ Hc).
  rewrite splice_bottom_up with (c := 0%Z).
  - rewrite slice_prefix by lia. reflexivity.
  - lia.
  - now rewrite length_slice by lia.
Qed.

End WalkFacts.

(* ------------------------------------------------------------------ *)
(** ** Names *)

Module NameFacts.

(** The loop to the root, one [parent] step at a time. *)
Lemma rootOf_parent c :
  rootOf c = match parent c with
             | Some p => rootOf p
             | None => focus c
             end.
Proof. destruct c as [n [|p up]]; reflexivity. Qed.

(** Under a package, a nested type gets the package again after the
    name of its parent. *)
Lemma getFullClassName_nested node p :
  JS.truthy p = true -> JS.truthy (Code.getPackageName node) = true ->
  Code.getFullClassName node (Some p)
  = p ++ "$" ++ Code.getPackageName node ++ "."
      ++ Code.getSimpleClassName (focus node).
Proof. intros Hp Hk. unfold Code.getFullClassName. now rewrite Hp, Hk. Qed.

End NameFacts.

(* ------------------------------------------------------------------ *)
(** ** The entry point *)

Module ChunkerFacts.
Import JS JSFacts SpliceFacts WalkFacts.

Lemma trimStart_allWhiteSpace s : allWhiteSpace s = true -> trimStart s = "".
Proof.
  induction s as [|c s IH]; cbn [allWhiteSpace trimStart]; [reflexivity|].
  intros H. apply andb_true_iff in H. destruct H as [-> H]. now apply IH.
Qed.

Lemma isBlank_allWhiteSpace s : allWhiteSpace s = true -> isBlank s = true.
Proof.
  intros H. unfold isBlank, trim. now rewrite trimStart_allWhiteSpace.
Qed.

Lemma yielded_map_Yield l :
  flat_map (fun e => match e with Code.Yield c => [c] | _ => [] end)
           (map Code.Yield l) = l.
Proof. induction l as [|c l IH]; cbn; congruence. Qed.

(** With a parser and text that is not blank, the chunks are those of
    the children of the root, child by child. *)
Lemma yielded_codeChunker gp filepath contents parser :
  isBlank contents = false -> gp filepath = Some parser ->
  Code.yielded (Code.codeChunker gp filepath contents)
  = flat_map (Code.chunkTopLevel contents) (children (parser contents)).
Proof.
  intros Hb Hp. unfold Code.codeChunker. fold (isBlank contents).
  rewrite Hb, Hp. unfold Code.yielded. cbn [Code.trace flat_map app].
  apply yielded_map_Yield.
Qed.

Lemma yielded_cases gp filepath contents :
  Code.yielded (Code.codeChunker gp filepath contents) = []
  \/ exists parser, gp filepath = Some parser
       /\ Code.yielded (Code.codeChunker gp filepath contents)
          = flat_map (Code.chunkTopLevel contents) (children (parser contents)).
Proof.
  destruct (isBlank contents) eqn:Hb.
  - left. unfold Code.codeChunker. fold (isBlank contents). now rewrite Hb.
  - destruct (gp filepath) as [parser|] eqn:Hp.
    + right. exists parser. split; [reflexivity|].
      now apply yielded_codeChunker.
    + left. unfold Code.codeChunker. fold (isBlank contents).
      now rewrite Hb, Hp.
Qed.

Lemma chunkTopLevel_type contents node :
  Code.isClassOrInterface node = true ->
  Code.chunkTopLevel contents node
  = Code.getCollapsedClassDefinition node contents
      :: map Code.methodChunk (filter multiRow (methodsOf node)).
Proof.
  intros H. unfold Code.chunkTopLevel.
  now rewrite H, chunkMethodRecursively_methodsOf.
Qed.

Lemma chunkTopLevel_ignored contents node :
  isIgnoredTopLevel node = true -> Code.chunkTopLevel contents node = [].
Proof.
  unfold isIgnoredTopLevel, Code.chunkTopLevel. intros H.
  apply andb_true_iff in H. destruct H as [H1 H2].
  apply negb_true_iff in H1, H2. now rewrite H1, H2.
Qed.

(** One top-level type among children that are ignored: the skeleton
    first, then one chunk per multi-row method declaration, in document
    order. *)
Lemma single_type_chunks gp filepath contents parser before cls after :
  isBlank contents = false -> gp filepath = Some parser ->
  children (parser contents) = (before ++ cls :: after)%list ->
  forallb isIgnoredTopLevel before = true ->
  forallb isIgnoredTopLevel after = true ->
  Code.isClassOrInterface cls = true ->
  Code.yielded (Code.codeChunker gp filepath contents)
  = Code.getCollapsedClassDefinition cls contents
      :: map Code.methodChunk (filter multiRow (methodsOf cls)).
Proof.
  intros Hb Hp Hc Hbef Haft Hcls.
  rewrite (yielded_codeChunker _ _ _ _ Hb Hp), Hc, flat_map_app.
  cbn [flat_map]. rewrite (chunkTopLevel_type _ _ Hcls).
  assert (Hnil : forall l, forallb isIgnoredTopLevel l = true ->
                           flat_map (Code.chunkTopLevel contents) l = []).
  { induction l as [|x l IH]; cbn [forallb flat_map]; [reflexivity|].
    intros H. apply andb_true_iff in H. destruct H as [Hx Hl].
    now rewrite (chunkTopLevel_ignored _ _ Hx), (IH Hl). }
  rewrite (Hnil _ Hbef), (Hnil _ Haft), app_nil_r. reflexivity.
Qed.

Lemma methodsOf_isMethod n : Forall (fun m => isMethod m = true) (methodsOf n).
Proof.
  induction n as [n Hm|n Hm Hb IH|n Hm Hnone|n cb Hm Hb Hf Hin IH] using walk_ind.
  - unfold methodsOf. rewrite membersBy_eq, Hm. now constructor.
  - unfold methodsOf. rewrite membersBy_eq, Hm, (firstClassBody_self _ Hb).
    induction IH as [|c cs Hc Hcs IHcs]; cbn [flat_map]; [constructor|].
    apply Forall_app. split; [|assumption].
    destruct (isMethod c || Code.isClassOrInterface c); [exact Hc|constructor].
  - unfold methodsOf. rewrite membersBy_eq, Hm, Hnone. constructor.
  - now rewrite (methodsOf_descend n cb).
Qed.

(** The methods listed are the members, and the other way round. *)
Lemma methodsOf_member n : forall m, In m (methodsOf n) <-> member n m.
Proof.
  induction n as [n Hm|n Hm Hb IH|n Hm Hnone|n cb Hm Hb Hf Hin IH] using walk_ind;
    intros m.
  - unfold methodsOf. rewrite membersBy_eq, Hm. split.
    + intros [<-|[]]. now constructor.
    + intros H. inversion H; subst; [now left|congruence].
  - unfold methodsOf. rewrite membersBy_eq, Hm, (firstClassBody_self _ Hb).
    rewrite in_flat_map. rewrite Forall_forall in IH. split.
    + intros (c & Hc & Hin).
      destruct (isMethod c || Code.isClassOrInterface c) eqn:E; [|destruct Hin].
      apply (member_nested n n c); auto using firstClassBody_self.
      now apply IH.
    + intros H. inversion H as [|? body c ? _ Hbody Hc Hw Hcm]; subst; [congruence|].
      rewrite (firstClassBody_self _ Hb) in Hbody. injection Hbody as <-.
      exists c. split; [assumption|]. rewrite Hw. now apply IH.
  - split.
    + unfold methodsOf. rewrite membersBy_eq, Hm, Hnone. intros [].
    + intros H. inversion H; subst; congruence.
  - rewrite (methodsOf_descend n cb) by assumption. rewrite IH.
    destruct (firstClassBody_found _ _ Hf) as [Hcb _].
    pose proof (body_not_method _ Hcb) as Hcm.
    split; intros H; inversion H as [|? body c ? _ Hbody Hc Hw Hcmm]; subst;
      try congruence.
    + rewrite (firstClassBody_self _ Hcb) in Hbody. injection Hbody as <-.
      now apply (member_nested n cb c).
    + rewrite Hf in Hbody. injection Hbody as <-.
      apply (member_nested cb cb c); auto using firstClassBody_self.
Qed.

Lemma rowsOrdered_inv n :
  rowsOrdered n = true ->
  startRow n <= endRow n /\ Forall (fun c => rowsOrdered c = true) (children n).
Proof.
  destruct n as [ty tx s e r1 r2 cs]. cbn [rowsOrdered startRow endRow children].
  rewrite andb_true_iff, forallb_forall, Forall_forall, Nat.leb_le. tauto.
Qed.

Lemma methodsOf_rows n :
  rowsOrdered n = true ->
  Forall (fun m => startRow m <= endRow m) (methodsOf n).
Proof.
  induction n as [n Hm|n Hm Hb IH|n Hm Hnone|n cb Hm Hb Hf Hin IH] using walk_ind;
    intros Hn; destruct (rowsOrdered_inv _ Hn) as [Hr Hall].
  - unfold methodsOf. rewrite membersBy_eq, Hm. now constructor.
  - unfold methodsOf. rewrite membersBy_eq, Hm, (firstClassBody_self _ Hb).
    induction IH as [|c cs Hc Hcs IHcs]; cbn [flat_map]; [constructor|].
    inversion Hall; subst.
    apply Forall_app. split; [|now apply IHcs].
    destruct (isMethod c || Code.isClassOrInterface c); [now apply Hc|constructor].
  - unfold methodsOf. rewrite membersBy_eq, Hm, Hnone. constructor.
  - rewrite (methodsOf_descend n cb) by assumption.
    rewrite Forall_forall in Hall. apply IH. now apply Hall.
Qed.

Lemma occursIn_replaceSpans txt sp spans : forall c,
  In sp spans -> occursIn (collapsedStr sp) (replaceSpans txt c spans).
Proof.
  induction spans as [|x spans IH]; intros c Hin; [destruct Hin|].
  cbn [replaceSpans]. destruct Hin as [->|Hin].
  - now exists (slice txt c (start sp)), (replaceSpans txt (end_ sp) spans).
  - destruct (IH (end_ x) Hin) as (l & r & E).
    exists (slice txt c (start x) ++ collapsedStr x ++ l), r.
    rewrite E, !append_assoc. reflexivity.
Qed.

Lemma bodySpans_In base n m b :
  In m (methodsOf n) ->
  find (fun c => type c =? NODE_TYPES.BLOCK) (children m) = Some b ->
  In (mkCollapsed (startIndex b - base) (endIndex b - base) (placeholder m))
     (bodySpans base n).
Proof.
  intros Hm Hb. unfold bodySpans. apply in_flat_map. exists m.
  split; [assumption|]. rewrite Hb. now left.
Qed.

Lemma constructor_not_visited c :
  type c = NODE_TYPES.CONSTRUCTOR -> Code.isVisitedChild c = false.
Proof.
  unfold Code.isVisitedChild, Code.isClassOrInterface. now intros ->.
Qed.

End ChunkerFacts.

(* ------------------------------------------------------------------ *)
(** ** The store *)

Module StoreFacts.
Import JS JSFacts SpliceFacts WalkFacts ChunkerFacts.

(** Updating the array at the first free address of [h] touches that
    array and nothing else. *)
Lemma update_at_length h f arr t :
  Store.update (List.length h) f (h ++ arr :: t)%list = (h ++ f arr :: t)%list.
Proof. induction h as [|x h IH]; cbn; [reflexivity|now rewrite IH]. Qed.

Lemma read_at_length h arr t :
  Store.read (List.length h) (h ++ arr :: t)%list = arr.
Proof. unfold Store.read. induction h as [|x h IH]; cbn; auto. Qed.

Lemma stateful_collect_eq node base a h :
  Stateful.collectMethodCollapsedsRecursively node base a h =
  if Code.isCollapsedNode node then
    match Code.collectMethodCollapseds node base with
    | Some c => Store.push a c h
    | None => h
    end
  else
    match firstClassBody node with
    | None => h
    | Some classBody =>
        fold_left
          (fun h child =>
             if Code.isVisitedChild child
             then Stateful.collectMethodCollapsedsRecursively child base a h
             else h)
          (children classBody) h
    end.
Proof.
  unfold firstClassBody.
  destruct node as [ty tx s e r1 r2 cs].
  cbn [Stateful.collectMethodCollapsedsRecursively children].
  destruct (Code.isCollapsedNode _); [reflexivity|].
  destruct (Code.isClassOrInterfaceBody (mkNode _ _ _ _ _ _ _)).
  - cbn [children]. fold_children.
  - first_body cs.
Qed.

(** Collecting into the array at address [length h] pushes onto that
    array what the walk collects, and leaves the arrays of [h] alone. *)
Lemma stateful_collect node base : forall h arr t,
  Stateful.collectMethodCollapsedsRecursively node base (List.length h)
    (h ++ arr :: t)%list
  = (h ++ Code.collectMethodCollapsedsRecursively node base arr :: t)%list.
Proof.
  induction node as [n Hm|n Hm Hb IH|n Hm Hnone|n cb Hm Hb Hf Hin IH] using walk_ind;
    intros h arr t.
  - rewrite stateful_collect_eq, collectMethodCollapsedsRecursively_eq.
    change Code.isCollapsedNode with isMethod. rewrite Hm.
    destruct (Code.collectMethodCollapseds n base); [|reflexivity].
    unfold Store.push. now rewrite update_at_length.
  - rewrite stateful_collect_eq, collectMethodCollapsedsRecursively_eq.
    change Code.isCollapsedNode with isMethod.
    rewrite Hm, (firstClassBody_self _ Hb).
    revert arr. induction IH as [|c cs Hc Hcs IHcs]; intros arr; [reflexivity|].
    cbn [fold_left]. destruct (Code.isVisitedChild c).
    + rewrite Hc. apply IHcs.
    + apply IHcs.
  - rewrite stateful_collect_eq, collectMethodCollapsedsRecursively_eq.
    change Code.isCollapsedNode with isMethod. now rewrite Hm, Hnone.
  - rewrite (collect_descend n cb) by assumption. rewrite <- IH.
    destruct (firstClassBody_found _ _ Hf) as [Hcb _].
    rewrite (stateful_collect_eq n), (stateful_collect_eq cb).
    change Code.isCollapsedNode with isMethod.
    now rewrite Hm, Hf, (body_not_method _ Hcb), (firstClassBody_self _ Hcb).
Qed.

(** One call of [collapseMethodBody]: the text is that of the pure
    reading, whatever the store held, and the store gains one array. *)
Lemma stateful_collapseMethodBody node code h :
  Stateful.collapseMethodBody node code h
  = (Code.collapseMethodBody node code,
     (h ++ [sort (fun a b => (start b - start a)%Z)
              (Code.collectMethodCollapsedsRecursively node (startIndex node) [])])%list).
Proof.
  unfold Stateful.collapseMethodBody, Store.alloc, Store.sortInPlace,
    Code.collapseMethodBody.
  rewrite stateful_collect, update_at_length, read_at_length. reflexivity.
Qed.

Lemma stateful_chunkTopLevel contents node h :
  fst (Stateful.chunkTopLevel contents node h) = Code.chunkTopLevel contents node.
Proof.
  unfold Stateful.chunkTopLevel, Code.chunkTopLevel,
    Stateful.getCollapsedClassDefinition, Code.getCollapsedClassDefinition.
  destruct (Code.isClassOrInterface node).
  - now rewrite stateful_collapseMethodBody.
  - destruct ((NODE_TYPES.ENUM =? type node) || (NODE_TYPES.ANNOTATION =? type node));
      reflexivity.
Qed.

Lemma stateful_eachTopLevel contents l : forall h,
  fst (Stateful.eachTopLevel contents l h)
  = flat_map (Code.chunkTopLevel contents) l.
Proof.
  induction l as [|n l IH]; intros h; [reflexivity|].
  cbn [Stateful.eachTopLevel flat_map].
  pose proof (stateful_chunkTopLevel contents n h) as E.
  destruct (Stateful.chunkTopLevel contents n h) as [chunks h1].
  specialize (IH h1).
  destruct (Stateful.eachTopLevel contents l h1) as [more h2].
  cbn [fst] in *. now rewrite E, IH.
Qed.

(** A run with the store is the run read off the pure functions,
    whatever the store held when it started. *)
Lemma stateful_codeChunker gp filepath contents h :
  fst (Stateful.codeChunker gp filepath contents h)
  = Code.codeChunker gp filepath contents.
Proof.
  unfold Stateful.codeChunker, Code.codeChunker.
  destruct (String.length (trim contents) =? 0)%nat; [reflexivity|].
  destruct (gp filepath) as [parser|]; [|reflexivity].
  pose proof (stateful_eachTopLevel contents (children (parser contents)) h) as E.
  destruct (Stateful.eachTopLevel _ _ h) as [chunks h1].
  cbn [fst] in *. now rewrite E.
Qed.

(** Providers that return the same tree give the same run. *)
Lemma codeChunker_sameTree gp1 gp2 filepath contents :
  sameTree gp1 gp2 filepath contents ->
  Code.codeChunker gp1 filepath contents = Code.codeChunker gp2 filepath contents.
Proof.
  unfold sameTree, Code.codeChunker. intros H.
  destruct (String.length (trim contents) =? 0)%nat; [reflexivity|].
  destruct (gp1 filepath) as [parser1|], (gp2 filepath) as [parser2|];
    try contradiction; [|reflexivity].
  cbv zeta. now rewrite H.
Qed.

(** The fresh array matters: were one array shared by the calls, as in
    [collapseMethodBodyShared], a second call would splice the stale
    replacements of the first again. *)
Example shared_array_rerun_differs :
  let first := Stateful.collapseMethodBodyShared 0 OneLinerNodes.a OneLiner.code [[]] in
  let second :=
    Stateful.collapseMethodBodyShared 0 OneLinerNodes.a OneLiner.code (snd first) in
  fst first = Code.collapseMethodBody OneLinerNodes.a OneLiner.code
  /\ fst second <> fst first.
Proof. split; [reflexivity|vm_compute; discriminate]. Qed.

Example store_after_a_run :
  snd (Stateful.codeChunker (providerOf OneLiner.root) "A.java" OneLiner.code [])
  = [[mkCollapsed 45 50 "{ id:g[2-3] }"; mkCollapsed 20 33 "{ id:f[1-1] }"]].
Proof. reflexivity. Qed.

End StoreFacts.

(* ------------------------------------------------------------------ *)
(** ** The samples *)

Module SampleFacts.

Example samples_well_nested :
  forallb (fun root => offsetsNested root && rowsOrdered root)
          [Scenario.root; Nesting.root; Wrapped.root; Stray.root; OneLiner.root]
  = true.
Proof. reflexivity. Qed.

Example scenario_members :
  map (fun n => (type n, Code.getMethodIdentifier n))
      (methodsAndConstructorsOf ScenarioNodes.outer)
  = [(NODE_TYPES.CONSTRUCTOR, "Outer[2-3]"); (NODE_TYPES.CONSTRUCTOR, "Outer[4-5]");
     (NODE_TYPES.METHOD, "m[6-7]"); (NODE_TYPES.METHOD, "im[9-10]")].
Proof. reflexivity. Qed.

Example nesting_simple_names :
  map Code.getSimpleClassName
      [NestingNodes.outer; NestingNodes.inner; NestingNodes.deepest]
  = ["Outer"; "Inner"; "Deepest"].
Proof. reflexivity. Qed.

Example wrapped_rows :
  (startRow WrappedNodes.m, endRow WrappedNodes.m,
   startRow WrappedNodes.body, endRow WrappedNodes.body) = (1, 2, 2, 2).
Proof. reflexivity. Qed.

Example oneLiner_chunks :
  map methodIdentifier (Code.yielded OneLinerNodes.run) = [None; Some "g[2-3]"].
Proof. reflexivity. Qed.

Example oneLiner_skeleton :
  option_map content (hd_error (Code.yielded OneLinerNodes.run))
  = Some "class A {
  int f() { id:f[1-1] }
  void g() { id:g[2-3] }
}".
Proof. reflexivity. Qed.

End SampleFacts.

(* ------------------------------------------------------------------ *)
(** ** The claims *)

Module Claims.
Import JS JSFacts SpliceFacts WalkFacts ChunkerFacts StoreFacts.

(** Every chunk of a run is the skeleton of a top-level type, the
    whole-file chunk of an enum or annotation type, or the chunk of a
    multi-row method declaration of a top-level type. *)
Lemma yielded_inv gp filepath contents c :
  In c (Code.yielded (Code.codeChunker gp filepath contents)) ->
  exists parser n,
    gp filepath = Some parser /\ In n (children (parser contents)) /\
    ((Code.isClassOrInterface n = true
      /\ c = Code.getCollapsedClassDefinition n contents)
     \/ (Code.isClassOrInterface n = true
         /\ exists m, In m (methodsOf n) /\ multiRow m = true
                      /\ c = Code.methodChunk m)
     \/ (Code.isClassOrInterface n = false
         /\ c = mkChunk contents (startRow n) (endRow n) None class_definition)).
Proof.
  intros Hin.
  destruct (yielded_cases gp filepath contents) as [E|(parser & Hp & E)];
    rewrite E in Hin; [destruct Hin|].
  apply in_flat_map in Hin. destruct Hin as (n & Hn & Hc).
  exists parser, n. split; [assumption|]. split; [assumption|].
  unfold Code.chunkTopLevel in Hc.
  destruct (Code.isClassOrInterface n) eqn:Ecls.
  - destruct Hc as [<-|Hc]; [now left|].
    right; left. split; [reflexivity|].
    rewrite chunkMethodRecursively_methodsOf in Hc.
    apply in_map_iff in Hc. destruct Hc as (m & <- & Hm).
    apply filter_In in Hm. destruct Hm as [Hm Hrows]. now exists m.
  - destruct ((NODE_TYPES.ENUM =? type n) || (NODE_TYPES.ANNOTATION =? type n));
      [|destruct Hc].
    destruct Hc as [<-|[]]. right; right. now split.
Qed.

(** C1 (the code departs from the claim): in the concrete scenario of the
    specification both constructors of Outer are constructor declarations
    with a body of two rows, members of the body of the chunked top-level
    class; the run yields the skeleton and the chunks of m and im only,
    no chunk for either constructor, and the skeleton keeps both
    constructor bodies as they are, without a placeholder. *)
Theorem scenario_constructors_dropped :
  Forall (fun ctor =>
            In ctor (children ScenarioNodes.outerBody)
            /\ type ctor = NODE_TYPES.CONSTRUCTOR
            /\ multiRow ctor = true
            /\ bodyOf ctor <> None
            /\ ~ In (Code.methodChunk ctor) (Code.yielded ScenarioNodes.run))
         [ScenarioNodes.constructor1; ScenarioNodes.constructor2]
  /\ map methodIdentifier (Code.yielded ScenarioNodes.run)
     = [None; Some "m[6-7]"; Some "im[9-10]"]
  /\ option_map content (hd_error (Code.yielded ScenarioNodes.run))
     = Some "package com.example.test;
class Outer {
  Outer() {
  }
  Outer(String s) {
  }
  void m() { id:m[6-7] }
  static class Inner {
    static void im() { id:im[9-10] }
  }
}".
Proof.
  split; [|split; reflexivity].
  repeat constructor; try discriminate;
    vm_compute; intuition discriminate.
Qed.

(** C2 (the code departs from the claim): for Outer containing Inner
    containing Deepest under package pkg, resolving top-down gives
    pkg.Outer for Outer, but pkg.Outer$pkg.Inner for Inner and
    pkg.Outer$pkg.Inner$pkg.Deepest for Deepest: the package prefix is
    repeated at every level. *)
Theorem nested_name_repeats_package :
  let outerName := Code.getFullClassName NestingNodes.atOuter None in
  let innerName := Code.getFullClassName NestingNodes.atInner (Some outerName) in
  let deepestName := Code.getFullClassName NestingNodes.atDeepest (Some innerName) in
  outerName = "pkg.Outer"
  /\ innerName = "pkg.Outer$pkg.Inner"
  /\ deepestName = "pkg.Outer$pkg.Inner$pkg.Deepest"
  /\ Code.getFullClassName NestingNodes.atDeepest (Some "pkg.Outer$Inner")
     = "pkg.Outer$Inner$pkg.Deepest".
Proof. vm_compute. repeat split. Qed.

(** C3 (the code departs from the claim): the scenario file has one
    top-level class with four multi-row members, two constructors and the
    methods m and im, yet the run yields three chunks, the skeleton and
    two method chunks, not 1 + 4. *)
Theorem scenario_chunk_count :
  map type (children Scenario.root) = [NODE_TYPES.PACKAGE; NODE_TYPES.CLASS]
  /\ map type (filter multiRow (methodsAndConstructorsOf ScenarioNodes.outer))
     = [NODE_TYPES.CONSTRUCTOR; NODE_TYPES.CONSTRUCTOR;
        NODE_TYPES.METHOD; NODE_TYPES.METHOD]
  /\ map chunkType (Code.yielded ScenarioNodes.run)
     = [class_definition; method_definition; method_definition]
  /\ List.length (Code.yielded ScenarioNodes.run)
     <> 1 + List.length (filter multiRow (methodsAndConstructorsOf ScenarioNodes.outer)).
Proof. vm_compute. repeat split. discriminate. Qed.

(** C4: for a top-level class or interface declaration of a well-nested
    tree whose range lies inside the file text, the run yields, as the
    first chunk of that declaration, the skeleton: the text before the
    declaration, then the text of the declaration with the block of
    every method (of nested types too) replaced by its placeholder and
    all the rest verbatim, from line 0 to the end row of the declaration,
    tagged class_definition. *)
Theorem skeleton_chunk gp filepath contents parser node :
  isBlank contents = false ->
  gp filepath = Some parser ->
  In node (children (parser contents)) ->
  Code.isClassOrInterface node = true ->
  offsetsNested node = true ->
  (0 <= startIndex node)%Z ->
  (endIndex node <= Z.of_nat (String.length contents))%Z ->
  In (skeletonOf contents node)
     (Code.yielded (Code.codeChunker gp filepath contents))
  /\ Code.chunkTopLevel contents node
     = skeletonOf contents node :: Code.chunkMethodRecursively node.
Proof.
  intros Hb Hp Hin Hcls Hn H0 Hlen.
  assert (E : Code.chunkTopLevel contents node
              = skeletonOf contents node :: Code.chunkMethodRecursively node).
  { unfold Code.chunkTopLevel. rewrite Hcls.
    now rewrite getCollapsedClassDefinition_skeletonOf. }
  split; [|exact E].
  rewrite (yielded_codeChunker _ _ _ _ Hb Hp).
  apply in_flat_map. exists node. split; [assumption|].
  rewrite E. now left.
Qed.

Lemma skeleton_chunk_witness :
  In (skeletonOf Scenario.code ScenarioNodes.outer)
     (Code.yielded ScenarioNodes.run)
  /\ Code.chunkTopLevel Scenario.code ScenarioNodes.outer
     = skeletonOf Scenario.code ScenarioNodes.outer
         :: Code.chunkMethodRecursively ScenarioNodes.outer.
Proof.
  apply (skeleton_chunk (providerOf Scenario.root) "Outer.java" Scenario.code
                        (fun _ => Scenario.root) ScenarioNodes.outer).
  - reflexivity.
  - reflexivity.
  - right; left; reflexivity.
  - reflexivity.
  - reflexivity.
  - vm_compute; discriminate.
  - vm_compute; discriminate.
Defined.

(** C5, as the claim states it, fails: the method m of the sample has
    its body on one row, the row its wrapped signature ends on, and the
    run yields a standalone chunk for it. *)
Lemma wrapped_single_row_body_chunked :
  In WrappedNodes.m (methodsOf WrappedNodes.a)
  /\ bodyOf WrappedNodes.m = Some WrappedNodes.body
  /\ startRow WrappedNodes.body = endRow WrappedNodes.body
  /\ In (Code.methodChunk WrappedNodes.m) (Code.yielded WrappedNodes.run).
Proof.
  split; [left; reflexivity|].
  split; [reflexivity|]. split; [reflexivity|].
  right; left; reflexivity.
Qed.

(** C5, amended: a method whose declaration, signature and body
    together, starts and ends on the same row gets no standalone chunk;
    when it has a block, the block is still replaced by the placeholder
    in the skeleton chunk of its top-level type, which the run yields. *)
Theorem single_row_method_suppressed gp filepath contents parser cls m :
  isBlank contents = false ->
  gp filepath = Some parser ->
  In cls (children (parser contents)) ->
  Code.isClassOrInterface cls = true ->
  In m (methodsOf cls) ->
  startRow m = endRow m ->
  ~ In (Code.methodChunk m) (Code.yielded (Code.codeChunker gp filepath contents))
  /\ forall b,
       find (fun c => type c =? NODE_TYPES.BLOCK) (children m) = Some b ->
       offsetsNested cls = true ->
       (0 <= startIndex cls)%Z ->
       (endIndex cls <= Z.of_nat (String.length contents))%Z ->
       In (skeletonOf contents cls)
          (Code.yielded (Code.codeChunker gp filepath contents))
       /\ In (mkCollapsed (startIndex b - startIndex cls)
                          (endIndex b - startIndex cls) (placeholder m))
             (bodySpans (startIndex cls) cls)
       /\ occursIn (placeholder m) (content (skeletonOf contents cls)).
Proof.
  intros Hb Hp Hcls Hty Hm Hrow. split.
  - intros Hin. apply yielded_inv in Hin.
    destruct Hin as (parser' & n & _ & _ & [[_ E]|[(_ & m' & _ & Hmulti & E)|[_ E]]]).
    + discriminate E.
    + unfold multiRow in Hmulti. apply negb_true_iff, Nat.eqb_neq in Hmulti.
      unfold Code.methodChunk in E. injection E as _ E1 E2 _. congruence.
    + discriminate E.
  - intros b Hblock Hn H0 Hlen.
    pose proof (bodySpans_In (startIndex cls) cls m b Hm Hblock) as Hspan.
    split; [|split; [exact Hspan|]].
    + rewrite (yielded_codeChunker _ _ _ _ Hb Hp).
      apply in_flat_map. exists cls. split; [assumption|].
      unfold Code.chunkTopLevel. rewrite Hty.
      left. now apply getCollapsedClassDefinition_skeletonOf.
    + cbn [skeletonOf content].
      destruct (occursIn_replaceSpans
                  (slice contents (startIndex cls) (endIndex cls)) _ _ 0%Z Hspan)
        as (l & r & E).
      exists (slice contents 0 (startIndex cls) ++ l), r.
      cbn [collapsedStr] in E. rewrite E, append_assoc. reflexivity.
Qed.

Lemma single_row_method_suppressed_witness :
  ~ In (Code.methodChunk OneLinerNodes.f) (Code.yielded OneLinerNodes.run)
  /\ In (skeletonOf OneLiner.code OneLinerNodes.a)
        (Code.yielded OneLinerNodes.run)
  /\ In (mkCollapsed (startIndex OneLinerNodes.fBody - startIndex OneLinerNodes.a)
                     (endIndex OneLinerNodes.fBody - startIndex OneLinerNodes.a)
                     (placeholder OneLinerNodes.f))
        (bodySpans (startIndex OneLinerNodes.a) OneLinerNodes.a)
  /\ occursIn (placeholder OneLinerNodes.f)
              (content (skeletonOf OneLiner.code OneLinerNodes.a)).
Proof.
  destruct (single_row_method_suppressed (providerOf OneLiner.root) "A.java"
              OneLiner.code (fun _ => OneLiner.root)
              OneLinerNodes.a OneLinerNodes.f) as [Hnone Hbody].
  - reflexivity.
  - reflexivity.
  - left; reflexivity.
  - reflexivity.
  - left; reflexivity.
  - reflexivity.
  - split; [exact Hnone|]. apply (Hbody OneLinerNodes.fBody).
    + reflexivity.
    + reflexivity.
    + vm_compute; discriminate.
    + vm_compute; discriminate.
Defined.

(** The package lookup of javaCodeUtil.ts finds a declaration exactly
    among the direct children of the root. *)
Lemma util_getPackageName_root_children PACKAGE node :
  JavaCodeUtil.getPackageName PACKAGE node = None
  <-> Forall (fun child => type child <> PACKAGE) (children (rootOf node)).
Proof.
  unfold JavaCodeUtil.getPackageName.
  destruct (find _ (children (rootOf node))) as [d|] eqn:E.
  - split; [discriminate|]. intros H. apply find_some in E.
    destruct E as [Hin Hty]. rewrite Forall_forall in H.
    apply String.eqb_eq in Hty. now apply H in Hin.
  - split; [|reflexivity]. intros _. apply Forall_forall. intros c Hin Hty.
    apply (find_none _ _ E) in Hin. apply String.eqb_neq in Hin. contradiction.
Qed.

(** C6 (the code departs from the claim): in the sample no child of the
    root is a package declaration, one lies inside the body of the method
    m; the lookup of code.ts searches the whole tree and answers foo,
    where the lookup of javaCodeUtil.ts, which scans the children of the
    root only, answers nothing. *)
Theorem stray_package_found :
  rootOf StrayNodes.atA = Stray.root
  /\ Forall (fun child => type child <> NODE_TYPES.PACKAGE) (children Stray.root)
  /\ Code.getPackageName StrayNodes.atA = "foo"
  /\ JavaCodeUtil.getPackageName NODE_TYPES.PACKAGE StrayNodes.atA = None.
Proof.
  split; [reflexivity|]. split; [|split; reflexivity].
  repeat constructor; discriminate.
Qed.

(** C7, as the claim states it, fails: with no parser for the path and
    blank contents the run returns normally; no error is raised. *)
Lemma blank_without_parser_returns :
  ~ (forall gp filepath contents,
       gp filepath = None ->
       exists message,
         Code.outcome (Code.codeChunker gp filepath contents)
         = Code.Thrown message).
Proof.
  intros H. destruct (H noProvider "Outer.java" "" eq_refl) as [message E].
  discriminate E.
Qed.

(** C7, amended: when the contents are not blank and the provider has
    no parser for the path, the run asks for the parser and throws,
    having yielded no chunk. *)
Theorem missing_parser_throws gp filepath contents :
  isBlank contents = false ->
  gp filepath = None ->
  Code.codeChunker gp filepath contents = failedRun filepath
  /\ Code.yielded (Code.codeChunker gp filepath contents) = [].
Proof.
  intros Hb Hp. unfold Code.codeChunker. fold (isBlank contents).
  rewrite Hb, Hp. split; reflexivity.
Qed.

Lemma missing_parser_throws_witness :
  Code.codeChunker noProvider "Outer.java" Scenario.code = failedRun "Outer.java"
  /\ Code.yielded (Code.codeChunker noProvider "Outer.java" Scenario.code) = [].
Proof.
  apply (missing_parser_throws noProvider "Outer.java" Scenario.code).
  - reflexivity.
  - reflexivity.
Defined.

(** C8: on contents that are empty or all white space the run ends at
    once: the provider is not asked for a parser, nothing is parsed, no
    chunk is yielded and no error is raised, whatever the provider. *)
Theorem blank_input_empty_run gp filepath contents :
  allWhiteSpace contents = true ->
  Code.codeChunker gp filepath contents = emptyRun.
Proof.
  intros H. unfold Code.codeChunker. fold (isBlank contents).
  now rewrite (isBlank_allWhiteSpace _ H).
Qed.

Lemma blank_input_empty_run_witness :
  Code.codeChunker noProvider "Outer.java" "   
  " = emptyRun.
Proof.
  apply (blank_input_empty_run noProvider "Outer.java").
  reflexivity.
Defined.

(** C9: running the chunker twice on the same path and contents, the
    provider returning the same tree, gives the same run, event by event,
    hence the same chunks with the same contents, lines, types and method
    identifiers in the same order.  The second run starts in the store the
    first one left, with the arrays the first one filled still in it, and
    the first run starts in any store: every call of collapseMethodBody
    works on an array of its own, so nothing carries over.  Both runs are
    the run read off the pure functions. *)
Theorem codeChunker_rerun_identical gp1 gp2 filepath contents h :
  sameTree gp1 gp2 filepath contents ->
  let first := Stateful.codeChunker gp1 filepath contents h in
  let second := Stateful.codeChunker gp2 filepath contents (snd first) in
  fst second = fst first
  /\ fst first = Code.codeChunker gp1 filepath contents.
Proof.
  intros H first second. subst first second.
  rewrite !stateful_codeChunker.
  rewrite (codeChunker_sameTree _ _ _ _ H). split; reflexivity.
Qed.

Lemma codeChunker_rerun_identical_witness :
  let stale := [[mkCollapsed 0 5 "stale"]; []] in
  let other := fun path => if path =? "Outer.java"
                           then Some (fun _ : string => Scenario.root) else None in
  let first :=
    Stateful.codeChunker (providerOf Scenario.root) "Outer.java" Scenario.code stale in
  let second := Stateful.codeChunker other "Outer.java" Scenario.code (snd first) in
  fst second = fst first
  /\ fst first = Code.codeChunker (providerOf Scenario.root) "Outer.java" Scenario.code.
Proof.
  apply (codeChunker_rerun_identical (providerOf Scenario.root)).
  reflexivity.
Defined.

(** C10: when no node of the tree ends above the row it starts on,
    every method_definition chunk of the run has startLine below endLine
    and carries a methodIdentifier, and every class_definition chunk has
    startLine at most endLine and carries none. *)
Theorem chunk_invariants gp filepath contents :
  (forall parser, gp filepath = Some parser ->
                  rowsOrdered (parser contents) = true) ->
  Forall chunkInvariant (Code.yielded (Code.codeChunker gp filepath contents)).
Proof.
  intros Hrows. apply Forall_forall. intros c Hin.
  apply yielded_inv in Hin.
  destruct Hin as (parser & n & Hp & Hn & Hc).
  specialize (Hrows parser Hp).
  destruct (rowsOrdered_inv _ Hrows) as [_ Hall].
  rewrite Forall_forall in Hall. specialize (Hall n Hn).
  destruct Hc as [[_ ->]|[(_ & m & Hm & Hmulti & ->)|[_ ->]]];
    unfold chunkInvariant; cbn.
  - split; [lia|reflexivity].
  - pose proof (methodsOf_rows n Hall) as Hr.
    rewrite Forall_forall in Hr. specialize (Hr m Hm).
    unfold multiRow in Hmulti. apply negb_true_iff, Nat.eqb_neq in Hmulti.
    split; [lia|discriminate].
  - destruct (rowsOrdered_inv _ Hall) as [Hr _]. split; [exact Hr|reflexivity].
Qed.

Lemma chunk_invariants_witness :
  Forall chunkInvariant (Code.yielded ScenarioNodes.run).
Proof.
  apply (chunk_invariants (providerOf Scenario.root) "Outer.java" Scenario.code).
  intros parser E. injection E as <-. reflexivity.
Defined.

End Claims.

(* ------------------------------------------------------------------ *)
(** ** Further properties of the three files *)

Module Extras.
Import JS JSFacts SpliceFacts WalkFacts ChunkerFacts.

Lemma find_app {A} (f : A -> bool) l1 l2 :
  find f (l1 ++ l2)%list
  = match find f l1 with Some x => Some x | None => find f l2 end.
Proof.
  induction l1 as [|x l1 IH]; cbn [app find]; [reflexivity|].
  destruct (f x); [reflexivity|exact IH].
Qed.

(** The search is the first match of the document-order listing. *)
Lemma findNodeByType_preorder node ty :
  Code.findNodeByType node ty = find (hasType ty) (preorder node).
Proof.
  induction node as [t tx s e r1 r2 cs IH] using SyntaxNode_ind.
  cbn [Code.findNodeByType preorder find]. unfold hasType at 1. cbn [type].
  destruct (t =? ty); [reflexivity|].
  induction IH as [|c cs Hc Hcs IHcs]; [reflexivity|].
  cbn [flat_map]. rewrite find_app, <- Hc.
  destruct (Code.findNodeByType c ty); [reflexivity|exact IHcs].
Qed.

Lemma find_first {A} (f : A -> bool) l r :
  find f l = Some r ->
  exists before after,
    l = (before ++ r :: after)%list /\ f r = true
    /\ Forall (fun x => f x = false) before.
Proof.
  induction l as [|x l IH]; cbn [find]; [discriminate|].
  destruct (f x) eqn:E.
  - intros [= ->]. exists [], l. repeat split; auto.
  - intros H. destruct (IH H) as (before & after & -> & Hr & Hb).
    exists (x :: before), after. repeat split; auto.
Qed.

(** X1: [findNodeByType] returns the first node of the wanted type in
    document order, the node itself included, and nothing exactly when
    no node of the subtree has that type. *)
Theorem findNodeByType_first_match node ty :
  match Code.findNodeByType node ty with
  | Some r =>
      exists before after,
        preorder node = (before ++ r :: after)%list
        /\ type r = ty
        /\ Forall (fun n => type n <> ty) before
  | None => Forall (fun n => type n <> ty) (preorder node)
  end.
Proof.
  rewrite findNodeByType_preorder.
  destruct (find _ _) as [r|] eqn:E.
  - destruct (find_first _ _ _ E) as (before & after & Hl & Hr & Hb).
    exists before, after. split; [assumption|].
    split; [now apply String.eqb_eq|].
    eapply Forall_impl; [|exact Hb]. intros n Hn. now apply String.eqb_neq.
  - apply Forall_forall. intros n Hin.
    apply (find_none _ _ E) in Hin. now apply String.eqb_neq.
Qed.

Lemma preorder_self n : In n (preorder n).
Proof. destruct n. now left. Qed.

Lemma preorder_eq n : preorder n = n :: flat_map preorder (children n).
Proof. now destruct n. Qed.

(** X2: when the name of a declaration is a direct identifier child and
    nothing before it in the declaration holds an identifier,
    [getSimpleClassName] returns the text of that child. *)
Theorem getSimpleClassName_name_child node before nameNode after :
  children node = (before ++ nameNode :: after)%list ->
  type node <> NODE_TYPES.IDENTIFIER ->
  type nameNode = NODE_TYPES.IDENTIFIER ->
  Forall (fun c => Forall (fun d => type d <> NODE_TYPES.IDENTIFIER) (preorder c))
         before ->
  Code.getSimpleClassName node = text nameNode.
Proof.
  intros Hc Hn Hname Hbefore. unfold Code.getSimpleClassName.
  rewrite findNodeByType_preorder, preorder_eq, Hc.
  cbn [find]. unfold hasType at 1.
  apply String.eqb_neq in Hn. rewrite Hn.
  rewrite flat_map_app, find_app.
  assert (E : find (hasType NODE_TYPES.IDENTIFIER) (flat_map preorder before) = None).
  { clear - Hbefore. induction Hbefore as [|c l Hc Hl IH]; [reflexivity|].
    cbn [flat_map]. rewrite find_app, IH.
    destruct (find _ (preorder c)) eqn:E; [|reflexivity].
    apply find_some in E. destruct E as [Hin Hty].
    rewrite Forall_forall in Hc. apply Hc in Hin.
    unfold hasType in Hty. apply String.eqb_eq in Hty. contradiction. }
  rewrite E. cbn [flat_map]. rewrite preorder_eq. cbn [app find].
  unfold hasType. rewrite Hname. reflexivity.
Qed.

Lemma getSimpleClassName_name_child_witness :
  Code.getSimpleClassName (nth_child 4 ScenarioNodes.outerBody)
  = text (nth_child 2 (nth_child 4 ScenarioNodes.outerBody))
  /\ text (nth_child 2 (nth_child 4 ScenarioNodes.outerBody)) = "Inner".
Proof.
  split; [|reflexivity].
  apply (getSimpleClassName_name_child (nth_child 4 ScenarioNodes.outerBody)
           [nth_child 0 (nth_child 4 ScenarioNodes.outerBody);
            nth_child 1 (nth_child 4 ScenarioNodes.outerBody)]
           (nth_child 2 (nth_child 4 ScenarioNodes.outerBody))
           [nth_child 3 (nth_child 4 ScenarioNodes.outerBody)]).
  - reflexivity.
  - vm_compute; discriminate.
  - reflexivity.
  - vm_compute. repeat constructor; discriminate.
Defined.


Lemma prefix_append p s : String.prefix p (p ++ s) = true.
Proof.
  induction p as [|c p IH]; cbn; [now destruct s|].
  destruct (ascii_dec c c); [exact IH|contradiction].
Qed.

Lemma replace_prefix p r s : replace p r (p ++ s) = r ++ s.
Proof.
  destruct p as [|c p].
  - cbn [append]. destruct s; cbn; now rewrite ?drop_0.
  - cbn [replace append]. change (String c (p ++ s)) with (String c p ++ s).
    rewrite prefix_append. now rewrite drop_append_length.
Qed.

Lemma replace_last_char c s :
  lacks c s = true ->
  replace (String c "") "" (s ++ String c "") = s.
Proof.
  induction s as [|d s IH]; cbn [lacks append]; intros H.
  - cbn. destruct (ascii_dec c c); [reflexivity|contradiction].
  - apply andb_true_iff in H. destruct H as [Hd Hs].
    apply negb_true_iff, Ascii.eqb_neq in Hd.
    cbn [replace String.prefix].
    destruct (ascii_dec c d) as [->|_]; [contradiction|].
    now rewrite IH.
Qed.


(** X4: when the first package declaration of the tree reads
    package, a space, a name and a semicolon, and the name has no
    semicolon and no white space at either end, [getPackageName] of
    code.ts returns the name, for every node of the tree. *)
Theorem getPackageName_declared node p name :
  Code.findNodeByType (rootOf node) NODE_TYPES.PACKAGE = Some p ->
  text p = "package " ++ name ++ ";" ->
  lacks ";" name = true ->
  trim name = name ->
  Code.getPackageName node = name.
Proof.
  intros Hp Htext Hsemi Htrim. unfold Code.getPackageName.
  rewrite Hp, Htext, replace_prefix. cbn [append].
  now rewrite (replace_last_char ";" name Hsemi).
Qed.

Lemma getPackageName_declared_witness :
  Code.getPackageName NestingNodes.atDeepest = "pkg".
Proof.
  apply (getPackageName_declared NestingNodes.atDeepest
           (nth_child 0 Nesting.root) "pkg"); reflexivity.
Defined.

Lemma findNodeByType_none node ty :
  Forall (fun n => type n <> ty) (preorder node) ->
  Code.findNodeByType node ty = None.
Proof.
  intros H. rewrite findNodeByType_preorder.
  destruct (find _ _) eqn:E; [|reflexivity].
  apply find_some in E. destruct E as [Hin Hty].
  rewrite Forall_forall in H. apply H in Hin.
  apply String.eqb_eq in Hty. contradiction.
Qed.

(** X5: in a tree without any package declaration [getFullClassName]
    is the simple name, joined to a non-empty parent name by a dollar
    sign and nothing else: no leading separator appears. *)
Theorem getFullClassName_without_package node parentClassName :
  Forall (fun n => type n <> NODE_TYPES.PACKAGE) (preorder (rootOf node)) ->
  Code.getFullClassName node parentClassName
  = match parentClassName with
    | Some p => if truthy p
                then p ++ "$" ++ Code.getSimpleClassName (focus node)
                else Code.getSimpleClassName (focus node)
    | None => Code.getSimpleClassName (focus node)
    end.
Proof.
  intros H. unfold Code.getFullClassName, Code.getPackageName.
  now rewrite (findNodeByType_none _ _ H).
Qed.

Lemma lacks_split c a b x y :
  lacks c a = true -> lacks c b = true ->
  a ++ String c x = b ++ String c y -> a = b /\ x = y.
Proof.
  revert b; induction a as [|d a IH]; intros [|e b] Ha Hb E;
    cbn [lacks append] in *.
  - injection E as E. now split.
  - injection E as E1 E2. subst e.
    apply andb_true_iff in Hb. destruct Hb as [Hb _].
    now rewrite Ascii.eqb_refl in Hb.
  - injection E as E1 E2. subst d.
    apply andb_true_iff in Ha. destruct Ha as [Ha _].
    now rewrite Ascii.eqb_refl in Ha.
  - injection E as E1 E2. subst e.
    apply andb_true_iff in Ha, Hb. destruct Ha as [_ Ha], Hb as [_ Hb].
    destruct (IH b Ha Hb E2) as [-> ->]. now split.
Qed.

Lemma lacks_digits c d :
  (nat_of_ascii c < 48 \/ 57 < nat_of_ascii c) ->
  lacks c (NilEmpty.string_of_uint d) = true.
Proof.
  intros Hc.
  induction d; cbn [NilEmpty.string_of_uint lacks]; try reflexivity;
    rewrite IHd, andb_true_r; apply negb_true_iff, Ascii.eqb_neq;
    intros <-; cbn in Hc; lia.
Qed.

Lemma to_uint_nonnil n : Nat.to_uint n <> Decimal.Nil.
Proof.
  rewrite <- (DecimalNat.Unsigned.of_to n) at 1.
  rewrite DecimalNat.Unsigned.to_of. apply DecimalFacts.unorm_nonnil.
Qed.

Lemma lacks_numberToString c n :
  (nat_of_ascii c < 48 \/ 57 < nat_of_ascii c) ->
  lacks c (numberToString n) = true.
Proof.
  intros Hc. unfold numberToString, NilZero.string_of_uint.
  pose proof (to_uint_nonnil n) as Hn.
  destruct (Nat.to_uint n) eqn:E; try (now apply lacks_digits).
  contradiction.
Qed.

Lemma numberToString_inj a b : numberToString a = numberToString b -> a = b.
Proof.
  unfold numberToString. intros E.
  apply (f_equal NilZero.uint_of_string) in E.
  rewrite !NilZero.usu in E by apply to_uint_nonnil.
  injection E as E. now apply DecimalNat.Unsigned.to_uint_inj.
Qed.

(** X6: two methods with name nodes whose texts have no opening
    bracket get the same identifier only if they have the same name, the
    same start row and the same end row. *)
Theorem getMethodIdentifier_injective m1 m2 n1 n2 :
  find (fun child => type child =? NODE_TYPES.IDENTIFIER) (children m1) = Some n1 ->
  find (fun child => type child =? NODE_TYPES.IDENTIFIER) (children m2) = Some n2 ->
  lacks "[" (text n1) = true ->
  lacks "[" (text n2) = true ->
  Code.getMethodIdentifier m1 = Code.getMethodIdentifier m2 ->
  text n1 = text n2 /\ startRow m1 = startRow m2 /\ endRow m1 = endRow m2.
Proof.
  intros H1 H2 L1 L2. unfold Code.getMethodIdentifier. rewrite H1, H2.
  cbn [append]. intros E.
  apply lacks_split in E; try assumption. destruct E as [Ename E].
  apply lacks_split in E; try (apply lacks_numberToString; cbn; lia).
  destruct E as [Es E].
  apply lacks_split in E; try (apply lacks_numberToString; cbn; lia).
  destruct E as [Ee _].
  apply numberToString_inj in Es, Ee. auto.
Qed.

(** X7: the method identifier is the empty string exactly when the
    method node has no direct identifier child. *)
Theorem getMethodIdentifier_empty m :
  Code.getMethodIdentifier m = ""
  <-> Forall (fun child => type child <> NODE_TYPES.IDENTIFIER) (children m).
Proof.
  unfold Code.getMethodIdentifier.
  destruct (find _ (children m)) as [n|] eqn:E; split.
  - intros H. exfalso. destruct (text n); discriminate H.
  - intros H. apply find_some in E. destruct E as [Hin Hty].
    rewrite Forall_forall in H. apply H in Hin.
    apply String.eqb_eq in Hty. contradiction.
  - intros _. apply Forall_forall. intros c Hin Hty.
    apply (find_none _ _ E) in Hin. apply String.eqb_neq in Hin. contradiction.
  - reflexivity.
Qed.


(** X8: when no method of a type, nested types included, has a block
    (an interface of abstract methods), the skeleton chunk is the file
    text before the type followed by the text of the type, unchanged; no
    assumption on the offsets is needed. *)
Theorem skeleton_without_bodies node code :
  (forall m, member node m -> hasBlock m = false) ->
  Code.getCollapsedClassDefinition node code
  = {| content := slice code 0 (startIndex node)
                    ++ slice code (startIndex node) (endIndex node);
       startLine := 0;
       endLine := endRow node;
       methodIdentifier := None;
       chunkType := class_definition |}.
Proof.
  intros H. unfold Code.getCollapsedClassDefinition, Code.collapseMethodBody.
  rewrite collect_bodySpans. cbn [app].
  assert (E : bodySpans (startIndex node) node = []).
  { unfold bodySpans.
    assert (Hall : Forall (fun m => hasBlock m = false) (methodsOf node)).
    { apply Forall_forall. intros m Hm. apply H. now apply methodsOf_member. }
    induction Hall as [|m l Hm Hl IH]; [reflexivity|].
    cbn [flat_map]. rewrite IH. unfold hasBlock in Hm.
    destruct (find _ (children m)); [discriminate|reflexivity]. }
  rewrite E. reflexivity.
Qed.

Lemma skeleton_without_bodies_witness :
  Code.getCollapsedClassDefinition MoreNodes.i Abstract.code
  = {| content := slice Abstract.code 0 (startIndex MoreNodes.i)
                    ++ slice Abstract.code (startIndex MoreNodes.i)
                         (endIndex MoreNodes.i);
       startLine := 0;
       endLine := endRow MoreNodes.i;
       methodIdentifier := None;
       chunkType := class_definition |}.
Proof.
  apply (skeleton_without_bodies MoreNodes.i Abstract.code).
  intros m Hm. apply methodsOf_member in Hm.
  destruct Hm as [<-|[<-|[]]]; reflexivity.
Defined.

(** X9: the chunks [chunkMethodRecursively] yields for a node are
    exactly the chunks of the method declarations that belong to it,
    directly or through nested class and interface declarations, and
    span more than one row. *)
Theorem method_chunk_iff_member node c :
  In c (Code.chunkMethodRecursively node)
  <-> exists m, member node m /\ multiRow m = true /\ c = Code.methodChunk m.
Proof.
  rewrite chunkMethodRecursively_methodsOf, in_map_iff. split.
  - intros (m & <- & Hm). apply filter_In in Hm. destruct Hm as [Hm Hr].
    exists m. split; [now apply methodsOf_member|now split].
  - intros (m & Hm & Hr & ->). exists m. split; [reflexivity|].
    apply filter_In. split; [now apply methodsOf_member|assumption].
Qed.

(** X10: a child of a class or interface body that is neither a method
    declaration nor a class or interface declaration (a field, a
    constructor, an enum) has no influence on the method chunks nor on
    the collected replacements: both walks give what they give on the
    body without that child. *)
Theorem unvisited_member_ignored n n' before c after :
  type n' = type n ->
  children n = (before ++ c :: after)%list ->
  children n' = (before ++ after)%list ->
  Code.isClassOrInterfaceBody n = true ->
  Code.isVisitedChild c = false ->
  Code.chunkMethodRecursively n = Code.chunkMethodRecursively n'
  /\ forall base acc,
       Code.collectMethodCollapsedsRecursively n base acc
       = Code.collectMethodCollapsedsRecursively n' base acc.
Proof.
  intros Hty Hc Hc' Hb Hv.
  assert (Hb' : Code.isClassOrInterfaceBody n' = true).
  { unfold Code.isClassOrInterfaceBody in *. now rewrite Hty. }
  pose proof (body_not_method _ Hb) as Hm.
  pose proof (body_not_method _ Hb') as Hm'.
  split; [|intros base acc].
  - rewrite (chunkMethodRecursively_eq n), (chunkMethodRecursively_eq n').
    change Code.isCollapsedNode with isMethod.
    rewrite Hm, Hm', (firstClassBody_self _ Hb), (firstClassBody_self _ Hb').
    rewrite Hc, Hc', !flat_map_app. cbn [flat_map]. now rewrite Hv.
  - rewrite (collectMethodCollapsedsRecursively_eq n),
      (collectMethodCollapsedsRecursively_eq n').
    change Code.isCollapsedNode with isMethod.
    rewrite Hm, Hm', (firstClassBody_self _ Hb), (firstClassBody_self _ Hb').
    rewrite Hc, Hc', !fold_left_app. cbn [fold_left]. now rewrite Hv.
Qed.

Lemma unvisited_member_ignored_witness :
  Code.chunkMethodRecursively ScenarioNodes.outerBody
  = Code.chunkMethodRecursively (withoutChild 1 ScenarioNodes.outerBody)
  /\ forall base acc,
       Code.collectMethodCollapsedsRecursively ScenarioNodes.outerBody base acc
       = Code.collectMethodCollapsedsRecursively
           (withoutChild 1 ScenarioNodes.outerBody) base acc.
Proof.
  apply (unvisited_member_ignored ScenarioNodes.outerBody
           (withoutChild 1 ScenarioNodes.outerBody)
           (firstn 1 (children ScenarioNodes.outerBody))
           ScenarioNodes.constructor1
           (skipn 2 (children ScenarioNodes.outerBody))); reflexivity.
Defined.

Lemma filter_classDefinition_methodChunk l :
  filter isClassDefinition (map Code.methodChunk l) = [].
Proof. induction l as [|m l IH]; [reflexivity|exact IH]. Qed.

(** X11: for a file whose root has one class or interface declaration
    among children that are ignored, the run yields 1 + k chunks, k the
    number of multi-row method declarations of the type: one
    class_definition chunk, then the k method chunks in document
    order. *)
Theorem single_type_completeness gp filepath contents parser before cls after :
  isBlank contents = false -> gp filepath = Some parser ->
  children (parser contents) = (before ++ cls :: after)%list ->
  forallb isIgnoredTopLevel before = true ->
  forallb isIgnoredTopLevel after = true ->
  Code.isClassOrInterface cls = true ->
  let chunks := Code.yielded (Code.codeChunker gp filepath contents) in
  let methods := filter multiRow (methodsOf cls) in
  List.length chunks = 1 + List.length methods
  /\ map chunkType chunks
     = class_definition :: map (fun _ => method_definition) methods
  /\ tl chunks = map Code.methodChunk methods.
Proof.
  intros Hb Hp Hc Hbef Haft Hcls chunks methods. subst chunks.
  rewrite (single_type_chunks _ _ _ _ _ _ _ Hb Hp Hc Hbef Haft Hcls).
  fold methods. cbn [List.length map tl]. rewrite length_map, map_map.
  repeat split.
Qed.

Lemma single_type_completeness_witness :
  let chunks := Code.yielded OneLinerNodes.run in
  let methods := filter multiRow (methodsOf OneLinerNodes.a) in
  List.length chunks = 1 + List.length methods
  /\ map chunkType chunks
     = class_definition :: map (fun _ => method_definition) methods
  /\ tl chunks = map Code.methodChunk methods.
Proof.
  apply (single_type_completeness (providerOf OneLiner.root) "A.java"
           OneLiner.code (fun _ => OneLiner.root) [] OneLinerNodes.a []);
    reflexivity.
Defined.

(** X12: the run yields as many class_definition chunks as the root
    has class, interface, enum and annotation declarations among its
    direct children; nested types get none of their own. *)
Theorem one_class_definition_per_top_level_type gp filepath contents parser :
  isBlank contents = false -> gp filepath = Some parser ->
  List.length (filter isClassDefinition
                 (Code.yielded (Code.codeChunker gp filepath contents)))
  = List.length (filter isTopLevelType (children (parser contents))).
Proof.
  intros Hb Hp. rewrite (yielded_codeChunker _ _ _ _ Hb Hp).
  induction (children (parser contents)) as [|n l IH]; [reflexivity|].
  cbn [flat_map filter]. rewrite filter_app, length_app, IH.
  unfold isTopLevelType at 2, Code.chunkTopLevel.
  destruct (Code.isClassOrInterface n).
  - rewrite chunkMethodRecursively_methodsOf. cbn [filter orb].
    unfold isClassDefinition at 1. cbn [chunkType Code.getCollapsedClassDefinition].
    now rewrite filter_classDefinition_methodChunk.
  - cbn [orb].
    destruct ((NODE_TYPES.ENUM =? type n) || (NODE_TYPES.ANNOTATION =? type n));
      reflexivity.
Qed.

Lemma one_class_definition_per_top_level_type_witness :
  List.length (filter isClassDefinition (Code.yielded ScenarioNodes.run))
  = List.length (filter isTopLevelType (children Scenario.root)).
Proof.
  apply (one_class_definition_per_top_level_type (providerOf Scenario.root)
           "Outer.java" Scenario.code (fun _ => Scenario.root)); reflexivity.
Defined.

(** X13: for a multi-row method with a block in a well-nested top-level
    type, the run yields the method chunk, with the text of the method as
    content, and a skeleton chunk that contains the placeholder built
    from the methodIdentifier of that very chunk. *)
Theorem method_chunk_matches_placeholder gp filepath contents parser cls m :
  isBlank contents = false -> gp filepath = Some parser ->
  In cls (children (parser contents)) ->
  Code.isClassOrInterface cls = true ->
  offsetsNested cls = true ->
  (0 <= startIndex cls)%Z ->
  (endIndex cls <= Z.of_nat (String.length contents))%Z ->
  member cls m -> multiRow m = true -> hasBlock m = true ->
  let chunks := Code.yielded (Code.codeChunker gp filepath contents) in
  exists chunk skeleton identifier,
    In chunk chunks /\ In skeleton chunks
    /\ chunkType chunk = method_definition
    /\ chunkType skeleton = class_definition
    /\ content chunk = text m
    /\ methodIdentifier chunk = Some identifier
    /\ occursIn ("{ id:" ++ identifier ++ " }") (content skeleton).
Proof.
  intros Hb Hp Hcls Hty Hn H0 Hlen Hm Hrows Hblock chunks. subst chunks.
  apply methodsOf_member in Hm.
  exists (Code.methodChunk m), (skeletonOf contents cls), (Code.getMethodIdentifier m).
  rewrite (yielded_codeChunker _ _ _ _ Hb Hp).
  assert (E : Code.chunkTopLevel contents cls
              = skeletonOf contents cls
                  :: map Code.methodChunk (filter multiRow (methodsOf cls))).
  { rewrite (chunkTopLevel_type _ _ Hty).
    now rewrite getCollapsedClassDefinition_skeletonOf. }
  repeat split.
  - apply in_flat_map. exists cls. split; [assumption|]. rewrite E. right.
    apply in_map, filter_In. now split.
  - apply in_flat_map. exists cls. split; [assumption|]. rewrite E. now left.
  - unfold hasBlock in Hblock.
    destruct (find _ (children m)) as [b|] eqn:Eb; [|discriminate].
    pose proof (bodySpans_In (startIndex cls) cls m b Hm Eb) as Hspan.
    cbn [skeletonOf content].
    destruct (occursIn_replaceSpans
                (slice contents (startIndex cls) (endIndex cls)) _ _ 0%Z Hspan)
      as (l & r & El).
    exists (slice contents 0 (startIndex cls) ++ l), r.
    cbn [collapsedStr] in El. rewrite El, append_assoc. reflexivity.
Qed.

Lemma method_chunk_matches_placeholder_witness :
  exists chunk skeleton identifier,
    In chunk (Code.yielded ScenarioNodes.run)
    /\ In skeleton (Code.yielded ScenarioNodes.run)
    /\ chunkType chunk = method_definition
    /\ chunkType skeleton = class_definition
    /\ content chunk = text MoreNodes.im
    /\ methodIdentifier chunk = Some identifier
    /\ occursIn ("{ id:" ++ identifier ++ " }") (content skeleton).
Proof.
  apply (method_chunk_matches_placeholder (providerOf Scenario.root)
           "Outer.java" Scenario.code (fun _ => Scenario.root)
           ScenarioNodes.outer MoreNodes.im); try reflexivity.
  - right; left; reflexivity.
  - vm_compute; discriminate.
  - apply methodsOf_member. right; left; reflexivity.
Defined.


Lemma drop_drop (s : string) n m : drop n (drop m s) = drop (m + n) s.
Proof.
  revert m; induction s as [|c s IH]; intros [|m]; cbn [drop Nat.add];
    try reflexivity.
  - now destruct n.
  - apply IH.
Qed.

Lemma drop_take (s : string) n m : drop n (take m s) = take (m - n) (drop n s).
Proof.
  revert n m; induction s as [|c s IH]; intros [|n] [|m]; cbn [drop take Nat.sub];
    try reflexivity;
    first [ now destruct (m - n) | now rewrite take_0 | apply IH ].
Qed.

Lemma slice_slice (s : string) (a b c d : Z) :
  (0 <= a <= c)%Z -> (c <= d <= b)%Z -> (b <= Z.of_nat (String.length s))%Z ->
  slice (slice s a b) (c - a) (d - a) = slice s c d.
Proof.
  intros Hac Hdb Hb.
  rewrite (slice_inside (slice s a b)) by (rewrite ?length_slice; lia).
  rewrite !slice_inside by lia.
  rewrite drop_take, take_take by lia. rewrite drop_drop.
  f_equal; [lia|f_equal; lia].
Qed.

(** X14: the content of a node lying inside another is the slice of
    the content of the outer node at the offsets relative to the start of
    the outer node, and it is as long as the range of the node. *)
Theorem getNodeContent_nested outer inner code :
  (0 <= startIndex outer <= startIndex inner)%Z ->
  (startIndex inner <= endIndex inner <= endIndex outer)%Z ->
  (endIndex outer <= Z.of_nat (String.length code))%Z ->
  slice (JavaCodeUtil.getNodeContent outer code)
        (startIndex inner - startIndex outer)
        (endIndex inner - startIndex outer)
  = JavaCodeUtil.getNodeContent inner code
  /\ Z.of_nat (String.length (JavaCodeUtil.getNodeContent inner code))
     = (endIndex inner - startIndex inner)%Z.
Proof.
  intros H1 H2 H3. unfold JavaCodeUtil.getNodeContent. split.
  - now apply slice_slice.
  - apply length_slice; lia.
Qed.

Lemma getNodeContent_nested_witness :
  slice (JavaCodeUtil.getNodeContent ScenarioNodes.outer Scenario.code)
        (startIndex MoreNodes.im - startIndex ScenarioNodes.outer)
        (endIndex MoreNodes.im - startIndex ScenarioNodes.outer)
  = JavaCodeUtil.getNodeContent MoreNodes.im Scenario.code
  /\ Z.of_nat (String.length (JavaCodeUtil.getNodeContent MoreNodes.im Scenario.code))
     = (endIndex MoreNodes.im - startIndex MoreNodes.im)%Z.
Proof.
  apply (getNodeContent_nested ScenarioNodes.outer MoreNodes.im Scenario.code);
    vm_compute; intuition discriminate.
Defined.

Lemma walkToRoot_app n before p after :
  walkToRoot n (before ++ p :: after) = walkToRoot p after.
Proof.
  revert n; induction before as [|q before IH]; intros n; cbn; auto.
Qed.

Lemma enclosingClassName_skip CLASS before rest :
  Forall (fun a => type a <> CLASS) before ->
  JavaCodeUtil.enclosingClassName CLASS (before ++ rest)
  = JavaCodeUtil.enclosingClassName CLASS rest.
Proof.
  induction 1 as [|a before Ha Hb IH]; [reflexivity|].
  cbn [app JavaCodeUtil.enclosingClassName].
  apply String.eqb_neq in Ha. now rewrite Ha.
Qed.

(** X15: for a node that is not a class declaration, [getClassName]
    is [getClassName] of its nearest enclosing class declaration: outer
    classes do not enter the name. *)
Theorem getClassName_nearest_class CLASS PACKAGE n before cls rest :
  type n <> CLASS ->
  Forall (fun a => type a <> CLASS) before ->
  type cls = CLASS ->
  JavaCodeUtil.getClassName CLASS PACKAGE (mkCursor n (before ++ cls :: rest))
  = JavaCodeUtil.getClassName CLASS PACKAGE (mkCursor cls rest).
Proof.
  intros Hn Hb Hcls. unfold JavaCodeUtil.getClassName, JavaCodeUtil.getPackageName, rootOf.
  cbn [focus ancestors]. rewrite walkToRoot_app.
  apply String.eqb_neq in Hn. rewrite Hn.
  rewrite (enclosingClassName_skip _ _ _ Hb).
  cbn [JavaCodeUtil.enclosingClassName].
  apply String.eqb_eq in Hcls. now rewrite Hcls.
Qed.

Lemma getClassName_nearest_class_witness :
  JavaCodeUtil.getClassName NODE_TYPES.CLASS NODE_TYPES.PACKAGE MoreNodes.atIm
  = JavaCodeUtil.getClassName NODE_TYPES.CLASS NODE_TYPES.PACKAGE MoreNodes.atInnerClass.
Proof.
  apply (getClassName_nearest_class NODE_TYPES.CLASS NODE_TYPES.PACKAGE
           MoreNodes.im [nth_child 3 MoreNodes.inner] MoreNodes.inner
           [ScenarioNodes.outerBody; ScenarioNodes.outer; Scenario.root]).
  - vm_compute; discriminate.
  - repeat constructor. vm_compute; discriminate.
  - reflexivity.
Defined.

(** X16: [getClassName] is undefined for a node that neither is nor
    lies inside a class declaration (a member of a top-level interface). *)
Theorem getClassName_outside_class CLASS PACKAGE node :
  type (focus node) <> CLASS ->
  Forall (fun a => type a <> CLASS) (ancestors node) ->
  JavaCodeUtil.getClassName CLASS PACKAGE node = None.
Proof.
  intros Hn Hup. unfold JavaCodeUtil.getClassName.
  apply String.eqb_neq in Hn. rewrite Hn.
  rewrite <- (List.app_nil_r (ancestors node)).
  now rewrite (enclosingClassName_skip _ _ _ Hup).
Qed.

Lemma getClassName_outside_class_witness :
  JavaCodeUtil.getClassName NODE_TYPES.CLASS NODE_TYPES.PACKAGE MoreNodes.atI = None.
Proof.
  apply (getClassName_outside_class NODE_TYPES.CLASS NODE_TYPES.PACKAGE MoreNodes.atI).
  - vm_compute; discriminate.
  - repeat constructor. vm_compute; discriminate.
Defined.

(** X17: [getClassName] never returns the empty string. *)
Theorem getClassName_never_empty CLASS PACKAGE node :
  JavaCodeUtil.getClassName CLASS PACKAGE node <> Some "".
Proof.
  unfold JavaCodeUtil.getClassName.
  destruct (if type (focus node) =? CLASS then _ else _) as [className|];
    [|discriminate].
  destruct className as [|c className]; [discriminate|].
  cbn [truthy negb].
  destruct (JavaCodeUtil.getPackageName PACKAGE node) as [[|d p]|];
    cbn [truthy append]; discriminate.
Qed.

Lemma chainTo_root root up : forall n,
  chainTo root n up -> walkToRoot n up = root.
Proof.
  induction up as [|p up IH]; cbn; intros n H; [assumption|].
  apply IH. tauto.
Qed.

(** X18: all nodes of one tree resolve to the same package name, with
    either lookup. *)
Theorem package_same_for_all_nodes root PACKAGE c1 c2 :
  cursorIn root c1 -> cursorIn root c2 ->
  Code.getPackageName c1 = Code.getPackageName c2
  /\ JavaCodeUtil.getPackageName PACKAGE c1 = JavaCodeUtil.getPackageName PACKAGE c2.
Proof.
  unfold cursorIn. intros H1 H2.
  apply chainTo_root in H1, H2.
  unfold Code.getPackageName, JavaCodeUtil.getPackageName, rootOf.
  now rewrite H1, H2.
Qed.

Lemma package_same_for_all_nodes_witness :
  Code.getPackageName MoreNodes.atIm = Code.getPackageName MoreNodes.atInnerClass
  /\ JavaCodeUtil.getPackageName NODE_TYPES.PACKAGE MoreNodes.atIm
     = JavaCodeUtil.getPackageName NODE_TYPES.PACKAGE MoreNodes.atInnerClass.
Proof.
  apply (package_same_for_all_nodes Scenario.root NODE_TYPES.PACKAGE).
  - cbv [cursorIn chainTo MoreNodes.atIm focus ancestors].
    repeat split; vm_compute; tauto.
  - cbv [cursorIn chainTo MoreNodes.atInnerClass focus ancestors].
    repeat split; vm_compute; tauto.
Defined.

Lemma append_cancel (p a b : string) : p ++ a = p ++ b -> a = b.
Proof. induction p as [|c p IH]; cbn; [auto|]. intros [= E]. auto. Qed.

(** X19: for a non-empty outer name, [getInnerClassName] of
    javaCodeUtil.ts and [getFullClassName] of code.ts never give the same
    name to a nested type: one joins with a dot, the other with a
    dollar sign. *)
Theorem nested_name_conventions_differ node outerClassName :
  truthy outerClassName = true ->
  JavaCodeUtil.getInnerClassName (focus node) outerClassName
  <> Some (Code.getFullClassName node (Some outerClassName)).
Proof.
  intros Ht. unfold JavaCodeUtil.getInnerClassName, Code.getFullClassName.
  rewrite Ht.
  destruct (find _ (children (focus node))); [|discriminate].
  intros [= E]. apply append_cancel in E. discriminate E.
Qed.

Lemma nested_name_conventions_differ_witness :
  JavaCodeUtil.getInnerClassName (focus NestingNodes.atInner) "pkg.Outer"
  <> Some (Code.getFullClassName NestingNodes.atInner (Some "pkg.Outer")).
Proof.
  apply (nested_name_conventions_differ NestingNodes.atInner "pkg.Outer").
  reflexivity.
Defined.


(** X20: when the package declaration at the root has no direct
    identifier child (a dotted package name),
    [getPackageName] of javaCodeUtil.ts is the empty string and
    [getClassName] of a named class declaration is its bare name. *)
Theorem dotted_package_unqualified CLASS PACKAGE node decl name :
  find (fun child => type child =? PACKAGE) (children (rootOf node)) = Some decl ->
  Forall (fun c => type c <> "identifier") (children decl) ->
  type (focus node) = CLASS ->
  JavaCodeUtil.identifierText (focus node) = Some name ->
  name <> "" ->
  JavaCodeUtil.getPackageName PACKAGE node = Some ""
  /\ JavaCodeUtil.getClassName CLASS PACKAGE node = Some name.
Proof.
  intros Hdecl Hids Hty Hname Hne.
  assert (E : JavaCodeUtil.getPackageName PACKAGE node = Some "").
  { unfold JavaCodeUtil.getPackageName. rewrite Hdecl.
    assert (F : filter (fun child => type child =? "identifier") (children decl) = []).
    { induction Hids as [|c l Hc Hl IH]; [reflexivity|].
      cbn [filter]. apply String.eqb_neq in Hc. now rewrite Hc. }
    now rewrite F. }
  split; [exact E|].
  unfold JavaCodeUtil.getClassName. rewrite E.
  apply String.eqb_eq in Hty. rewrite Hty, Hname.
  destruct name; [contradiction|reflexivity].
Qed.

Lemma dotted_package_unqualified_witness :
  JavaCodeUtil.getPackageName NODE_TYPES.PACKAGE MoreNodes.atInnerClass = Some ""
  /\ JavaCodeUtil.getClassName NODE_TYPES.CLASS NODE_TYPES.PACKAGE
       MoreNodes.atInnerClass = Some "Inner".
Proof.
  apply (dotted_package_unqualified NODE_TYPES.CLASS NODE_TYPES.PACKAGE
           MoreNodes.atInnerClass (nth_child 0 Scenario.root) "Inner").
  - reflexivity.
  - repeat constructor; vm_compute; discriminate.
  - reflexivity.
  - reflexivity.
  - discriminate.
Defined.

Lemma endsWith_suffix s suffix :
  CodeTraceContextProvider.endsWith s suffix = true ->
  exists stem, s = stem ++ suffix.
Proof.
  unfold CodeTraceContextProvider.endsWith. intros H.
  apply andb_true_iff in H. destruct H as [_ H]. apply String.eqb_eq in H.
  exists (take (String.length s - String.length suffix) s).
  rewrite <- H at 2. symmetry. apply take_drop.
Qed.

Section Submenu.
Variable Field : Type.
Variable FileType_File : Z.
Variable joinPathsToUri : option string -> string -> string.
Variable getWorkspaceDirs : list string.
Variable fileExists : string -> bool.
Variable listDir : string -> list (string * Z).
Variable readFile : string -> option string.
Variable parseTrace : string -> option (Field * Field).

Let loadFile :=
  CodeTraceContextProvider.loadFile Field FileType_File joinPathsToUri
    readFile parseTrace.
Let items :=
  CodeTraceContextProvider.loadSubmenuItems Field FileType_File joinPathsToUri
    getWorkspaceDirs fileExists listDir readFile parseTrace.
Let codeTraceDir :=
  joinPathsToUri (hd_error getWorkspaceDirs) CodeTraceContextProvider.CODE_TRACE_DIR.

Lemma loadFile_acc dir acc file :
  loadFile dir acc file = (acc ++ loadFile dir [] file)%list.
Proof.
  unfold loadFile, CodeTraceContextProvider.loadFile.
  destruct (negb _ || negb _); [now rewrite app_nil_r|].
  destruct (readFile _) as [content|]; [|now rewrite app_nil_r].
  destruct (parseTrace content) as [[name desc]|]; [reflexivity|].
  now rewrite app_nil_r.
Qed.

Lemma fold_loadFile dir files : forall acc,
  fold_left (loadFile dir) files acc
  = (acc ++ flat_map (loadFile dir []) files)%list.
Proof.
  induction files as [|file files IH]; intros acc; cbn [fold_left flat_map].
  - now rewrite app_nil_r.
  - rewrite IH, loadFile_acc, app_assoc. reflexivity.
Qed.

(** X21: when the trace directory exists, the ids of the submenu items
    are, in listing order, the names of the listed entries that are
    files, end in .json, can be read and parse; an entry that fails a
    test is skipped and the others are kept. *)
Theorem loadSubmenuItems_ids :
  fileExists codeTraceDir = true ->
  map (CodeTraceContextProvider.id Field) items
  = map fst
      (filter
         (fun file =>
            (snd file =? FileType_File)%Z
            && CodeTraceContextProvider.endsWith (fst file) ".json"
            && match readFile (joinPathsToUri (Some codeTraceDir) (fst file)) with
               | Some content =>
                   match parseTrace content with Some _ => true | None => false end
               | None => false
               end)
         (listDir codeTraceDir)).
Proof.
  intros He. unfold items, CodeTraceContextProvider.loadSubmenuItems.
  fold codeTraceDir. rewrite He. cbn [negb].
  fold loadFile. rewrite fold_loadFile. cbn [app].
  induction (listDir codeTraceDir) as [|file files IH]; [reflexivity|].
  cbn [flat_map filter]. rewrite map_app, IH.
  unfold loadFile at 1, CodeTraceContextProvider.loadFile.
  destruct (snd file =? FileType_File)%Z; [|reflexivity].
  destruct (CodeTraceContextProvider.endsWith (fst file) ".json"); [|reflexivity].
  cbn [negb orb andb].
  destruct (readFile _) as [content|]; [|reflexivity].
  destruct (parseTrace content) as [[name desc]|]; reflexivity.
Qed.

(** X22: when the trace directory does not exist there is no submenu
    item at all; in every case each item is a listed file whose name
    ends in .json, and there are at most as many items as entries. *)
Theorem loadSubmenuItems_only_json_files :
  (fileExists codeTraceDir = false -> items = [])
  /\ Forall
       (fun item =>
          In (CodeTraceContextProvider.id Field item, FileType_File)
             (listDir codeTraceDir)
          /\ exists stem, CodeTraceContextProvider.id Field item = stem ++ ".json")
       items
  /\ List.length items <= List.length (listDir codeTraceDir).
Proof.
  split.
  { unfold items, CodeTraceContextProvider.loadSubmenuItems. fold codeTraceDir.
    now intros ->. }
  unfold items, CodeTraceContextProvider.loadSubmenuItems. fold codeTraceDir.
  destruct (fileExists codeTraceDir); cbn [negb];
    [|split; [constructor|apply Nat.le_0_l]].
  fold loadFile. rewrite fold_loadFile. cbn [app].
  induction (listDir codeTraceDir) as [|file files [IH1 IH2]];
    [split; [constructor|apply Nat.le_refl]|].
  cbn [flat_map]. rewrite length_app. cbn [List.length].
  assert (H : Forall
                (fun item =>
                   CodeTraceContextProvider.id Field item = fst file
                   /\ snd file = FileType_File
                   /\ exists stem, fst file = stem ++ ".json")
                (loadFile codeTraceDir [] file)
              /\ List.length (loadFile codeTraceDir [] file) <= 1).
  { unfold loadFile, CodeTraceContextProvider.loadFile.
    destruct (Z.eqb_spec (snd file) FileType_File) as [Ef|];
      [|split; [constructor|cbn; lia]].
    destruct (CodeTraceContextProvider.endsWith (fst file) ".json") eqn:Ej;
      [|split; [constructor|cbn; lia]].
    cbn [negb orb].
    destruct (readFile _) as [content|]; [|split; [constructor|cbn; lia]].
    destruct (parseTrace content) as [[name desc]|];
      [|split; [constructor|cbn; lia]].
    split; [|cbn; lia]. constructor; [|constructor].
    cbn. repeat split; auto using endsWith_suffix. }
  destruct H as [H1 H2]. split; [|lia].
  apply Forall_app. split.
  - eapply Forall_impl; [|exact H1]. cbn beta.
    intros item (Hid & Hf & stem & Hs). split.
    + left. rewrite Hid, <- Hf. now destruct file.
    + exists stem. now rewrite Hid.
  - eapply Forall_impl; [|exact IH1]. cbn beta.
    intros item [Hin Hs]. split; [now right|assumption].
Qed.

End Submenu.


Lemma getFullClassName_without_package_witness :
  Code.getFullClassName MoreNodes.atOneLinerA (Some "Outer")
  = (if truthy "Outer"
     then "Outer" ++ "$" ++ Code.getSimpleClassName (focus MoreNodes.atOneLinerA)
     else Code.getSimpleClassName (focus MoreNodes.atOneLinerA)).
Proof.
  apply (getFullClassName_without_package MoreNodes.atOneLinerA (Some "Outer")).
  vm_compute. repeat constructor; discriminate.
Defined.

Lemma getMethodIdentifier_injective_witness :
  text (nth_child 1 ScenarioNodes.m)
  = text (nth_child 0 (withoutChild 0 ScenarioNodes.m))
  /\ startRow ScenarioNodes.m = startRow (withoutChild 0 ScenarioNodes.m)
  /\ endRow ScenarioNodes.m = endRow (withoutChild 0 ScenarioNodes.m).
Proof.
  apply (getMethodIdentifier_injective
           ScenarioNodes.m (withoutChild 0 ScenarioNodes.m)
           (nth_child 1 ScenarioNodes.m)
           (nth_child 0 (withoutChild 0 ScenarioNodes.m)));
    reflexivity.
Defined.

(** X3: when the first child of a declaration holds an identifier
    anywhere inside it (an annotation among the modifiers),
    [getSimpleClassName] returns that identifier, whatever the declared
    name is. *)
Theorem getSimpleClassName_earlier_identifier node first rest r :
  children node = first :: rest ->
  type node <> NODE_TYPES.IDENTIFIER ->
  Code.findNodeByType first NODE_TYPES.IDENTIFIER = Some r ->
  Code.getSimpleClassName node = text r.
Proof.
  intros Hc Hn Hr. unfold Code.getSimpleClassName.
  rewrite findNodeByType_preorder in *. rewrite preorder_eq, Hc.
  cbn [find flat_map]. unfold hasType at 1.
  apply String.eqb_neq in Hn. rewrite Hn.
  now rewrite find_app, Hr.
Qed.

Lemma getSimpleClassName_earlier_identifier_witness :
  Code.getSimpleClassName MoreNodes.x
  = text (nth_child 1 (nth_child 0 (nth_child 0 MoreNodes.x)))
  /\ text (nth_child 1 (nth_child 0 (nth_child 0 MoreNodes.x))) = "Deprecated".
Proof.
  split; [|reflexivity].
  apply (getSimpleClassName_earlier_identifier MoreNodes.x
           (nth_child 0 MoreNodes.x) (tl (children MoreNodes.x))).
  - reflexivity.
  - vm_compute; discriminate.
  - reflexivity.
Defined.

Lemma loadSubmenuItems_only_json_files_witness :
  CodeTraceContextProvider.loadSubmenuItems string 1%Z
    SampleIde.joinPathsToUri SampleIde.getWorkspaceDirs (fun _ => false)
    SampleIde.listDir SampleIde.readFile SampleIde.parseTrace
  = [].
Proof.
  destruct (loadSubmenuItems_only_json_files string 1%Z SampleIde.joinPathsToUri
              SampleIde.getWorkspaceDirs (fun _ => false) SampleIde.listDir
              SampleIde.readFile SampleIde.parseTrace) as [Hmissing _].
  apply Hmissing. reflexivity.
Defined.

Lemma loadSubmenuItems_ids_witness :
  map (CodeTraceContextProvider.id string)
      (CodeTraceContextProvider.loadSubmenuItems string 1%Z
         SampleIde.joinPathsToUri SampleIde.getWorkspaceDirs SampleIde.fileExists
         SampleIde.listDir SampleIde.readFile SampleIde.parseTrace)
  = ["login.json"].
Proof.
  apply (loadSubmenuItems_ids string 1%Z SampleIde.joinPathsToUri
           SampleIde.getWorkspaceDirs SampleIde.fileExists SampleIde.listDir
           SampleIde.readFile SampleIde.parseTrace).
  reflexivity.
Defined.

End Extras.
